(** * Conversational AI tutor: the turn orchestrator of the React front end

    A shallow embedding of the front end's event handlers.

    - [Js]: the JavaScript values the handlers compute with: UTF-16 text and
      [String.prototype.trim], truthiness, property lookup on an object
      literal.
    - [Async]: a small monad for [async] handlers.  The component state is
      threaded through, exceptions are completions handled by
      [try]/[catch]/[finally], and every [await] of an external call adds an
      entry to a log, with the component state that is on display while the
      handler is suspended there.  How each external call settles is an
      argument of the handler.
    - [Data]: Messages, backend responses, the external calls.
    - [Speech]: [getVoiceConfig] and [speak] of [SpeechService]
      (frontend/src/services/speech.js) and the Mascot's expression lookup
      (frontend/src/components/Mascot.jsx).
    - [Api]: [ApiService] (frontend/src/services/api.js).
    - [App]: the [App] component with sessions (third document of
      frontend/services/api.js) and the submit handler of its
      [VoiceControls] (frontend/src/components/VoiceControls.jsx).
    - [LegacyApp]: the earlier [App] component (frontend/App.js) and the
      submit handler of its [VoiceControls] (frontend/voicecontrols.js).
    - [TtsHook]: the [useTextToSpeech] hook.
    - [Recorder]: [stopRecording] of [AudioRecorder]
      (frontend/src/services/audioRecorder.js).
    - [Samples], [Props]: concrete inputs, and the states and predicates the
      statements are written with. *)

From Stdlib Require Import List String Ascii Bool NArith QArith Lia.
Import ListNotations.

Local Open Scope string_scope.
Local Open Scope list_scope.

(* ================================================================== *)
(** ** JavaScript values *)

Module Js.

(** Text typed by the user or sent by the backend is a JavaScript string: a
    sequence of UTF-16 code units.  [trim] depends on the code units, so the
    text is kept at that level. *)
Definition jsstring := list N.

(** An ASCII literal of the source as a JavaScript string. *)
Fixpoint lit (s : string) : jsstring :=
  match s with
  | EmptyString => []
  | String a r => N_of_ascii a :: lit r
  end.

(** WhiteSpace and LineTerminator code points of ECMAScript, the ones
    [String.prototype.trim] strips.  All of them are in the basic plane. *)
Definition is_white_space (c : N) : bool :=
  match c with
  | 9 | 10 | 11 | 12 | 13 | 32 | 160 | 5760
  | 8192 | 8193 | 8194 | 8195 | 8196 | 8197 | 8198 | 8199 | 8200 | 8201
  | 8202 | 8232 | 8233 | 8239 | 8287 | 12288 | 65279 => true
  | _ => false
  end%N.

Fixpoint trimStart (s : jsstring) : jsstring :=
  match s with
  | [] => []
  | c :: r => if is_white_space c then trimStart r else s
  end.

Definition trimEnd (s : jsstring) : jsstring := rev (trimStart (rev s)).

Definition trim (s : jsstring) : jsstring := trimEnd (trimStart s).

(** Truthiness of a string: the empty string is falsy. *)
Definition truthy_text (s : jsstring) : bool :=
  match s with [] => false | _ => true end.

(** Truthiness of a value that is [null]/[undefined] or a string. *)
Definition truthy (v : option string) : bool :=
  match v with
  | None => false
  | Some s => negb (s =? "")
  end.

(** The property names every object literal inherits from
    [Object.prototype]; each of them holds a function or object, hence a
    truthy value. *)
Definition object_prototype_keys : list string :=
  [ "constructor"; "__defineGetter__"; "__defineSetter__";
    "hasOwnProperty"; "__lookupGetter__"; "__lookupSetter__";
    "isPrototypeOf"; "propertyIsEnumerable"; "toString"; "valueOf";
    "__proto__"; "toLocaleString" ].

Definition inherited (key : string) : bool :=
  existsb (String.eqb key) object_prototype_keys.

(** What [obj[key]] yields for an object literal [obj] whose own properties
    are given as an association list. *)
Inductive property (A : Type) : Type :=
| Own (v : A)
| Inherited (key : string)
| Undefined.
Arguments Own {A} v.
Arguments Inherited {A} key.
Arguments Undefined {A}.

Fixpoint own_property {A : Type} (obj : list (string * A)) (key : string)
  : option A :=
  match obj with
  | [] => None
  | (k, v) :: r => if k =? key then Some v else own_property r key
  end.

Definition get_property {A : Type} (obj : list (string * A)) (key : string)
  : property A :=
  match own_property obj key with
  | Some v => Own v
  | None => if inherited key then Inherited key else Undefined
  end.

(** [a || b] where [a] is the result of a property lookup. *)
Definition or_else {A : Type} (a b : property A) : property A :=
  match a with
  | Undefined => b
  | _ => a
  end.

End Js.

Import Js.

(* ================================================================== *)
(** ** Asynchronous handlers *)

Module Async.

(** A thrown value: an [Error] with its message. *)
Definition exn := string.

(** How a call or a block completes. *)
Inductive completion (A : Type) : Type :=
| Normal (a : A)
| Throw (e : exn).
Arguments Normal {A} a.
Arguments Throw {A} e.

(** The call rejects. *)
Definition throws {A} (r : completion A) : bool :=
  match r with
  | Throw _ => true
  | Normal _ => false
  end.

Section Handler.

(** [St] is the component state, [Call] the external requests. *)
Context {St Call : Type}.

(** One entry of the log: the handler is suspended on an external call, a
    platform event fired while it was suspended, or control entered a named
    function; each entry holds the component state of that instant. *)
Inductive item : Type :=
| Suspended (c : Call) (s : St)
| Fired (event : string) (s : St)
| Entered (fn : string) (s : St).

Definition rendered (i : item) : St :=
  match i with
  | Suspended _ s => s
  | Fired _ s => s
  | Entered _ s => s
  end.

Definition entered (i : item) : option string :=
  match i with
  | Entered fn _ => Some fn
  | _ => None
  end.

Definition request (i : item) : option Call :=
  match i with
  | Suspended c _ => Some c
  | _ => None
  end.

Definition handler (A : Type) : Type :=
  St -> list item -> completion A * St * list item.

Definition ret {A} (a : A) : handler A :=
  fun s t => (Normal a, s, t).

Definition bind {A B} (m : handler A) (k : A -> handler B) : handler B :=
  fun s t =>
    match m s t with
    | (Normal a, s', t') => k a s' t'
    | (Throw e, s', t') => (Throw e, s', t')
    end.

Definition throw {A} (e : exn) : handler A :=
  fun s t => (Throw e, s, t).

Definition get : handler St :=
  fun s t => (Normal s, s, t).

(** A state setter of the component. *)
Definition set (f : St -> St) : handler unit :=
  fun s t => (Normal tt, f s, t).

(** [await] of an external call that settles as [r]: the handler is
    suspended with the current state on display. *)
Definition await {A} (c : Call) (r : completion A) : handler A :=
  fun s t => (r, s, t ++ [Suspended c s]).

(** A platform event handler that runs while the handler is suspended. *)
Definition fire (event : string) (f : St -> St) : handler unit :=
  fun s t => (Normal tt, f s, t ++ [Fired event (f s)]).

(** Control enters the function [fn]. *)
Definition enter (fn : string) : handler unit :=
  fun s t => (Normal tt, s, t ++ [Entered fn s]).

(** [try { body } catch (e) { recover e }] *)
Definition try_catch {A} (body : handler A) (recover : exn -> handler A)
  : handler A :=
  fun s t =>
    match body s t with
    | (Normal a, s', t') => (Normal a, s', t')
    | (Throw e, s', t') => recover e s' t'
    end.

(** [try { body } finally { final }] *)
Definition try_finally {A} (body : handler A) (final : handler unit)
  : handler A :=
  fun s t =>
    match body s t with
    | (r, s', t') =>
        match final s' t' with
        | (Normal _, s'', t'') => (r, s'', t'')
        | (Throw e, s'', t'') => (Throw e, s'', t'')
        end
    end.

(** Running a handler from a state, with an empty log. *)
Definition run {A} (m : handler A) (s : St) : completion A * St * list item :=
  m s [].

Definition result {A} (o : completion A * St * list item) : completion A :=
  fst (fst o).
Definition final {A} (o : completion A * St * list item) : St :=
  snd (fst o).
Definition log {A} (o : completion A * St * list item) : list item :=
  snd o.

(** The external requests issued, in order. *)
Definition requests (t : list item) : list Call :=
  flat_map (fun i => match request i with Some c => [c] | None => [] end) t.

(** The functions entered, in order. *)
Definition calls (t : list item) : list string :=
  flat_map (fun i => match entered i with Some f => [f] | None => [] end) t.

(** Every state that was on display during the run: at each suspension
    and event, and at the end. *)
Definition instants {A} (o : completion A * St * list item) : list St :=
  map rendered (log o) ++ [final o].

End Handler.

Arguments item : clear implicits.
Arguments handler : clear implicits.

Declare Scope handler_scope.
Delimit Scope handler_scope with handler.
Notation "x <- m ;; k" := (bind m (fun x => k))
  (at level 61, m at next level, right associativity) : handler_scope.
Notation "m ;; k" := (bind m (fun _ => k))
  (at level 61, right associativity) : handler_scope.

End Async.

Import Async.


(* ================================================================== *)
(** ** Shared data: messages, backend responses, external calls *)

Module Data.

Inductive Role : Type := User | Assistant.

Inductive Mode : Type := Chat | Query.

(** A Message object of the conversation.  The fields [id], [emotion] and
    [sources] are absent from some of the object literals. *)
Record Message : Type := {
  id : option N;
  role : Role;
  content : jsstring;
  emotion : option string;
  sources : option (list jsstring);
  timestamp : N
}.

(** The JSON body a [/chat] or [/query] request resolves with. *)
Record Response : Type := {
  text : jsstring;
  r_emotion : string;
  r_session_id : option string;
  r_sources : option (list jsstring)
}.

(** One entry of [SpeechService.getVoiceConfig]'s table. *)
Record VoiceConfig : Type := {
  rate : Q;
  pitch : Q;
  volume : Q;
  gender : string;
  accent : string
}.

(** The external requests a handler waits for. *)
Inductive Call : Type :=
| PostChat (question : jsstring) (session_id : option string)
| PostQuery (question : jsstring)
| PostTts (text : jsstring) (emotion : string)
| PostReset (session_id : option string)
| AudioPlay (src : string)
| SpeakOnDevice (text : jsstring) (config : property VoiceConfig)
| Recognize.

Definition is_backend_turn_call (c : Call) : bool :=
  match c with
  | PostChat _ _ | PostQuery _ => true
  | _ => false
  end.

Definition is_on_device (c : Call) : bool :=
  match c with
  | SpeakOnDevice _ _ => true
  | _ => false
  end.

Definition is_remote_tts (c : Call) : bool :=
  match c with
  | PostTts _ _ | AudioPlay _ => true
  | _ => false
  end.

(** The fixed text of the apology message. *)
Definition apology : jsstring :=
  lit "Sorry, I encountered an error. Please try again.".

(** [UI_CONFIG.CONVERSATION_MAX_MESSAGES] of frontend/src/utils/constants.js. *)
Definition CONVERSATION_MAX_MESSAGES : nat := 100.

(** The values of [EMOTIONS] in frontend/src/utils/constants.js. *)
Definition EMOTIONS : list string :=
  [ "neutral"; "happy"; "excited"; "thinking"; "confused"; "explaining";
    "encouraging"; "listening"; "surprised" ].

Definition recognized (tag : string) : bool :=
  existsb (String.eqb tag) EMOTIONS.

End Data.

Import Data.

(* ================================================================== *)
(** ** frontend/src/services/speech.js and the Mascot's table *)

Module Speech.

Local Open Scope Q_scope.

Definition configs : list (string * VoiceConfig) :=
  [ ("happy",       {| rate := 11#10; pitch := 12#10; volume := 9#10;
                       gender := "female"; accent := "us" |});
    ("excited",     {| rate := 12#10; pitch := 13#10; volume := 10#10;
                       gender := "female"; accent := "us" |});
    ("thinking",    {| rate := 8#10; pitch := 9#10; volume := 8#10;
                       gender := "male"; accent := "uk" |});
    ("confused",    {| rate := 7#10; pitch := 8#10; volume := 7#10;
                       gender := "female"; accent := "us" |});
    ("explaining",  {| rate := 9#10; pitch := 10#10; volume := 9#10;
                       gender := "male"; accent := "us" |});
    ("encouraging", {| rate := 10#10; pitch := 11#10; volume := 9#10;
                       gender := "female"; accent := "us" |});
    ("listening",   {| rate := 10#10; pitch := 10#10; volume := 8#10;
                       gender := "female"; accent := "us" |});
    ("surprised",   {| rate := 11#10; pitch := 12#10; volume := 9#10;
                       gender := "female"; accent := "us" |});
    ("neutral",     {| rate := 10#10; pitch := 10#10; volume := 8#10;
                       gender := "female"; accent := "us" |}) ].

(** [return configs[emotion] || configs.neutral] *)
Definition getVoiceConfig (emotion : string) : property VoiceConfig :=
  or_else (get_property configs emotion) (get_property configs "neutral").

(** The platform side of one [SpeechService.speak] call: whether
    [window.speechSynthesis] exists, and whether the utterance ends ([onend])
    or fails ([onerror], or [synthesis.speak] throwing). *)
Record Synthesis : Type := {
  synthesis_present : bool;
  utterance : completion unit
}.

(** [await speechService.speak(text, emotion)]: the promise rejects at once
    without a synthesizer; otherwise the utterance is configured from
    [getVoiceConfig(emotion)] and the promise settles as the utterance does.
    The log entry holds the configuration the call selects.  The choice of a
    voice among the platform's voices ([selectVoice]) has no effect on the
    component state and is not part of the embedding. *)
Definition speak {St : Type} (p : Synthesis) (text : jsstring)
  (emotion : string) : handler St Call unit :=
  let voiceConfig := getVoiceConfig emotion in
  await (SpeakOnDevice text voiceConfig)
        (if negb (synthesis_present p)
         then Throw "Speech synthesis not supported"
         else utterance p).

(** [EMOTION_EXPRESSIONS] of frontend/src/components/Mascot.jsx: the emoji
    (as a code point) and the colour of each expression. *)
Definition EMOTION_EXPRESSIONS : list (string * (N * string)) :=
  [ ("neutral",     (128522%N, "#4facfe"%string));
    ("happy",       (128516%N, "#4ecdc4"%string));
    ("excited",     (129321%N, "#ff6b6b"%string));
    ("thinking",    (129300%N, "#ffa726"%string));
    ("confused",    (128533%N, "#ef5350"%string));
    ("explaining",  (129504%N, "#ab47bc"%string));
    ("encouraging", (128170%N, "#66bb6a"%string));
    ("listening",   (128066%N, "#42a5f5"%string));
    ("surprised",   (128558%N, "#ff7043"%string)) ].

(** [EMOTION_EXPRESSIONS[emotion] || EMOTION_EXPRESSIONS.neutral] *)
Definition currentExpression (emotion : string) : property (N * string) :=
  or_else (get_property EMOTION_EXPRESSIONS emotion)
          (get_property EMOTION_EXPRESSIONS "neutral").

End Speech.

(* ================================================================== *)
(** ** [ApiService] (frontend/src/services/api.js) *)

Module Api.

Section Service.

Context {St : Type}.

(** [sendChatMessage(question, sessionId)]: the payload carries [session_id]
    only when [sessionId] is truthy.  [reply] is how the request settles. *)
Definition sendChatMessage (reply : completion Response) (question : jsstring)
  (sessionId : option string) : handler St Call Response :=
  let session_id := if truthy sessionId then sessionId else None in
  await (PostChat question session_id) reply.

(** [sendQuery(question)] *)
Definition sendQuery (reply : completion Response) (question : jsstring)
  : handler St Call Response :=
  await (PostQuery question) reply.

(** [convertTextToSpeech(text, emotion)]: any failure is rethrown as one
    fixed error. *)
Definition convertTextToSpeech (tts : completion string) (text : jsstring)
  (emotion : string) : handler St Call string :=
  try_catch (await (PostTts text emotion) tts)
            (fun _ => throw "Failed to convert text to speech").

(** [resetConversation(sessionId)] *)
Definition resetConversation (reset : completion unit)
  (sessionId : option string) : handler St Call unit :=
  let session_id := if truthy sessionId then sessionId else None in
  await (PostReset session_id) reset.

End Service.

End Api.

(* ================================================================== *)
(** ** The [App] component with sessions (frontend/services/api.js) *)

Module App.

Local Open Scope handler_scope.

(** The component state ([useState] hooks of [App]). *)
Record AppState : Type := {
  conversation : list Message;
  currentEmotion : string;
  isListening : bool;
  isSpeaking : bool;
  isLoading : bool;
  mode : Mode;
  sessionId : option string;
  error : option string
}.

Definition initial : AppState :=
  {| conversation := []; currentEmotion := "neutral"; isListening := false;
     isSpeaking := false; isLoading := false; mode := Chat;
     sessionId := None; error := None |}.

(** Functional updates of the state, one per [useState] setter. *)
Definition with_conversation (f : list Message -> list Message) (s : AppState) : AppState :=
  {| conversation := f (conversation s);
     currentEmotion := currentEmotion s;
     isListening := isListening s;
     isSpeaking := isSpeaking s;
     isLoading := isLoading s;
     mode := mode s;
     sessionId := sessionId s;
     error := error s |}.

Definition with_emotion (e : string) (s : AppState) : AppState :=
  {| conversation := conversation s;
     currentEmotion := e;
     isListening := isListening s;
     isSpeaking := isSpeaking s;
     isLoading := isLoading s;
     mode := mode s;
     sessionId := sessionId s;
     error := error s |}.

Definition with_listening (b : bool) (s : AppState) : AppState :=
  {| conversation := conversation s;
     currentEmotion := currentEmotion s;
     isListening := b;
     isSpeaking := isSpeaking s;
     isLoading := isLoading s;
     mode := mode s;
     sessionId := sessionId s;
     error := error s |}.

Definition with_speaking (b : bool) (s : AppState) : AppState :=
  {| conversation := conversation s;
     currentEmotion := currentEmotion s;
     isListening := isListening s;
     isSpeaking := b;
     isLoading := isLoading s;
     mode := mode s;
     sessionId := sessionId s;
     error := error s |}.

Definition with_loading (b : bool) (s : AppState) : AppState :=
  {| conversation := conversation s;
     currentEmotion := currentEmotion s;
     isListening := isListening s;
     isSpeaking := isSpeaking s;
     isLoading := b;
     mode := mode s;
     sessionId := sessionId s;
     error := error s |}.

Definition with_mode (f : Mode -> Mode) (s : AppState) : AppState :=
  {| conversation := conversation s;
     currentEmotion := currentEmotion s;
     isListening := isListening s;
     isSpeaking := isSpeaking s;
     isLoading := isLoading s;
     mode := f (mode s);
     sessionId := sessionId s;
     error := error s |}.

Definition with_session (v : option string) (s : AppState) : AppState :=
  {| conversation := conversation s;
     currentEmotion := currentEmotion s;
     isListening := isListening s;
     isSpeaking := isSpeaking s;
     isLoading := isLoading s;
     mode := mode s;
     sessionId := v;
     error := error s |}.

Definition with_error (v : option string) (s : AppState) : AppState :=
  {| conversation := conversation s;
     currentEmotion := currentEmotion s;
     isListening := isListening s;
     isSpeaking := isSpeaking s;
     isLoading := isLoading s;
     mode := mode s;
     sessionId := sessionId s;
     error := v |}.

Definition setConversation (f : list Message -> list Message) : handler AppState Call unit :=
  set (with_conversation f).

Definition setCurrentEmotion (e : string) : handler AppState Call unit :=
  set (with_emotion e).

Definition setIsListening (b : bool) : handler AppState Call unit :=
  set (with_listening b).

Definition setIsSpeaking (b : bool) : handler AppState Call unit :=
  set (with_speaking b).

Definition setIsLoading (b : bool) : handler AppState Call unit :=
  set (with_loading b).

Definition setMode (f : Mode -> Mode) : handler AppState Call unit :=
  set (with_mode f).

Definition setSessionId (v : option string) : handler AppState Call unit :=
  set (with_session v).

Definition setError (v : option string) : handler AppState Call unit :=
  set (with_error v).

(** What the outside world does during one turn: the clock readings of
    [Date.now()] when the user message and when the reply (or apology) is
    built, how the [/chat] or [/query] request settles, how the [/tts]
    request settles, whether the hidden [<audio>] element is mounted
    ([audioRef.current]), how [play()] settles, and the on-device
    synthesizer. *)
Record Turn : Type := {
  now_submit : N;
  now_reply : N;
  reply : completion Response;
  tts : completion string;
  audio_mounted : bool;
  play : completion unit;
  synthesis : Speech.Synthesis
}.

(** The remote synthesis path rejects: the [/tts] request fails (request or
    decode error), or the clip is handed to the audio element and [play()]
    rejects (playback error). *)
Definition primary_rejects (w : Turn) : bool :=
  throws (tts w) || (audio_mounted w && throws (play w)).

(** The on-device synthesizer exists and its utterance ends normally. *)
Definition fallback_succeeds (w : Turn) : bool :=
  Speech.synthesis_present (synthesis w)
  && negb (throws (Speech.utterance (synthesis w))).

(** The [onended] handler [handleSpeak] installs on the audio element. *)
Definition audio_onended (s : AppState) : AppState :=
  with_emotion "neutral" (with_speaking false s).

(** [handleSpeak(text, emotion)] *)
Definition handleSpeak (w : Turn) (text : jsstring) (emotion : string)
  : handler AppState Call unit :=
  try_catch
    (setIsSpeaking true ;;
     try_catch
       (audioUrl <- Api.convertTextToSpeech (tts w) text emotion ;;
        if audio_mounted w then await (AudioPlay audioUrl) (play w)
        else ret tt)
       (fun apiError =>
          Speech.speak (synthesis w) text emotion ;;
          setIsSpeaking false ;;
          setCurrentEmotion "neutral"))
    (fun error =>
       setIsSpeaking false ;;
       setCurrentEmotion "neutral").

(** [handleUserInput(text)].  [mode] and [sessionId] are the values the
    callback closed over, those of the state it is called in. *)
Definition handleUserInput (w : Turn) (text : jsstring)
  : handler AppState Call unit :=
  s0 <- get ;;
  if negb (truthy_text (trim text)) then ret tt
  else
    let userMessage :=
      {| id := Some (now_submit w); role := User; content := text;
         emotion := None; sources := None; timestamp := now_submit w |} in
    setConversation (fun prev => prev ++ [userMessage]) ;;
    setIsLoading true ;;
    setCurrentEmotion "thinking" ;;
    setError None ;;
    try_finally
      (try_catch
         (response <- match mode s0 with
                      | Chat => Api.sendChatMessage (reply w) text
                                                    (sessionId s0)
                      | Query => Api.sendQuery (reply w) text
                      end ;;
          (match mode s0 with
           | Chat => if truthy (r_session_id response)
                     then setSessionId (r_session_id response)
                     else ret tt
           | Query => ret tt
           end) ;;
          let aiMessage :=
            {| id := Some (now_reply w + 1)%N; role := Assistant;
               content := Data.text response;
               emotion := Some (r_emotion response);
               sources := Some match r_sources response with
                               | Some l => l
                               | None => []
                               end;
               timestamp := now_reply w |} in
          setConversation (fun prev => prev ++ [aiMessage]) ;;
          setCurrentEmotion (r_emotion response) ;;
          handleSpeak w (Data.text response) (r_emotion response))
         (fun error =>
            setError (Some "Failed to get response from AI tutor") ;;
            setCurrentEmotion "confused" ;;
            let errorMessage :=
              {| id := Some (now_reply w + 1)%N; role := Assistant;
                 content := apology; emotion := Some "confused";
                 sources := None; timestamp := now_reply w |} in
            setConversation (fun prev => prev ++ [errorMessage])))
      (setIsLoading false).

(** The microphone side of one [handleStartListening] call, as
    [SpeechService.startListening] sees it: whether a recognizer exists,
    whether the service is already listening (it then returns [undefined]),
    and the transcript or error the recognizer produces. *)
Record Capture : Type := {
  recognition_present : bool;
  service_listening : bool;
  recognition : completion jsstring
}.

(** [SpeechService.startListening()] *)
Definition startListening (m : Capture)
  : handler AppState Call (option jsstring) :=
  if negb (recognition_present m) then throw "Speech recognition not supported"
  else if service_listening m then ret None
  else transcript <- await Recognize (recognition m) ;; ret (Some transcript).

(** [handleStartListening()] *)
Definition handleStartListening (m : Capture) (w : Turn)
  : handler AppState Call unit :=
  try_finally
    (try_catch
       (setIsListening true ;;
        setCurrentEmotion "listening" ;;
        setError None ;;
        transcript <- startListening m ;;
        match transcript with
        | Some t => if truthy_text t then handleUserInput w t else ret tt
        | None => ret tt
        end)
       (fun error =>
          setError (Some "Speech recognition failed. Please try typing instead.") ;;
          setCurrentEmotion "confused"))
    (setIsListening false).

(** [handleStopListening()] *)
Definition handleStopListening : handler AppState Call unit :=
  setIsListening false ;;
  setCurrentEmotion "neutral".

(** [handleClearConversation()]; [reset] is how the [/reset] request
    settles, if it is made. *)
Definition handleClearConversation (reset : completion unit)
  : handler AppState Call unit :=
  s0 <- get ;;
  try_catch
    ((if truthy (sessionId s0)
      then Api.resetConversation reset (sessionId s0)
      else ret tt) ;;
     setConversation (fun _ => []) ;;
     setSessionId None ;;
     setCurrentEmotion "neutral" ;;
     setError None)
    (fun error => ret tt).

Definition toggle (m : Mode) : Mode :=
  match m with Chat => Query | Query => Chat end.

(** [handleToggleMode()] *)
Definition handleToggleMode (reset : completion unit)
  : handler AppState Call unit :=
  setMode toggle ;;
  handleClearConversation reset.

(** [disabled={isLoading || isSpeaking}], the prop [VoiceControls] gets. *)
Definition disabled (s : AppState) : bool := isLoading s || isSpeaking s.

(** [VoiceControls.handleTextSubmit]: the form's submit handler, with the
    text field's content; it returns the new content of the field. *)
Definition handleTextSubmit (w : Turn) (textInput : jsstring)
  : handler AppState Call jsstring :=
  s0 <- get ;;
  if truthy_text (trim textInput) && negb (disabled s0)
  then handleUserInput w (trim textInput) ;; ret []
  else ret textInput.

(** [VoiceControls.handleVoiceToggle] *)
Definition handleVoiceToggle (m : Capture) (w : Turn)
  : handler AppState Call unit :=
  s0 <- get ;;
  if isListening s0 then handleStopListening
  else handleStartListening m w.

(** The commands of the presentation boundary, each with what the outside
    world does while it runs. *)
Inductive Command : Type :=
| SubmitText (text : jsstring) (w : Turn)
| ToggleListening (m : Capture) (w : Turn)
| Reset (reset : completion unit)
| ToggleMode (reset : completion unit)
| PlaybackEnded.

Definition exec (c : Command) : handler AppState Call unit :=
  match c with
  | SubmitText text w => handleUserInput w text
  | ToggleListening m w => handleVoiceToggle m w
  | Reset reset => handleClearConversation reset
  | ToggleMode reset => handleToggleMode reset
  | PlaybackEnded => set audio_onended
  end.

(** A session: the commands run one after the other; every handler catches
    its own failures, and a failure that escaped would end the session. *)
Fixpoint session (cs : list Command) : handler AppState Call unit :=
  match cs with
  | [] => ret tt
  | c :: r => exec c ;; session r
  end.

End App.

(* ================================================================== *)
(** ** The earlier [App] component (frontend/App.js) *)

Module LegacyApp.

Local Open Scope handler_scope.

Record AppState : Type := {
  isListening : bool;
  isSpeaking : bool;
  currentEmotion : string;
  conversation : list Message;
  isLoading : bool;
  mode : Mode
}.

Definition initial : AppState :=
  {| isListening := false; isSpeaking := false; currentEmotion := "neutral";
     conversation := []; isLoading := false; mode := Chat |}.

(** The external requests of this component: [chatAPI] and [queryAPI] of
    frontend/api.js, and [speechSynthesis.speak] with the utterance's rate,
    pitch and volume. *)
Inductive Call : Type :=
| ChatAPI (question : jsstring)
| QueryAPI (question : jsstring)
| SynthesisSpeak (text : jsstring) (rate pitch volume : Q).

Definition is_backend_turn_call (c : Call) : bool :=
  match c with
  | ChatAPI _ | QueryAPI _ => true
  | _ => false
  end.

Definition with_speaking (b : bool) (s : AppState) : AppState :=
  {| isListening := isListening s;
     isSpeaking := b;
     currentEmotion := currentEmotion s;
     conversation := conversation s;
     isLoading := isLoading s;
     mode := mode s |}.

Definition with_emotion (e : string) (s : AppState) : AppState :=
  {| isListening := isListening s;
     isSpeaking := isSpeaking s;
     currentEmotion := e;
     conversation := conversation s;
     isLoading := isLoading s;
     mode := mode s |}.

Definition with_conversation (f : list Message -> list Message) (s : AppState) : AppState :=
  {| isListening := isListening s;
     isSpeaking := isSpeaking s;
     currentEmotion := currentEmotion s;
     conversation := f (conversation s);
     isLoading := isLoading s;
     mode := mode s |}.

Definition with_loading (b : bool) (s : AppState) : AppState :=
  {| isListening := isListening s;
     isSpeaking := isSpeaking s;
     currentEmotion := currentEmotion s;
     conversation := conversation s;
     isLoading := b;
     mode := mode s |}.

Definition with_mode (f : Mode -> Mode) (s : AppState) : AppState :=
  {| isListening := isListening s;
     isSpeaking := isSpeaking s;
     currentEmotion := currentEmotion s;
     conversation := conversation s;
     isLoading := isLoading s;
     mode := f (mode s) |}.

Definition setCurrentEmotion (e : string) : handler AppState Call unit :=
  set (with_emotion e).

Definition setConversation (f : list Message -> list Message) : handler AppState Call unit :=
  set (with_conversation f).

Definition setIsLoading (b : bool) : handler AppState Call unit :=
  set (with_loading b).

Definition setMode (f : Mode -> Mode) : handler AppState Call unit :=
  set (with_mode f).

(** What the outside world does during one turn: the clock, how the backend
    request settles, whether [window.speechSynthesis] exists, whether one of
    the synthesizer's methods called by [handleSpeak] ([cancel], the
    utterance constructor, [getVoices], [speak]) throws, whether the
    utterance's [start] event fires, and whether it finishes with [end]
    (otherwise with [error]).

    An utterance that the synthesizer accepted is reported back by exactly
    one of [end] and [error]; these are the runs a [Turn] describes.  Were
    neither event to fire, the promise of [handleSpeak] would never settle
    and [handleUserInput] would stay suspended at the synthesizer's
    suspension of the log, in the state displayed there. *)
Record Turn : Type := {
  now_submit : N;
  now_reply : N;
  reply : completion Response;
  synthesis_present : bool;
  synthesizer_throws : option exn;
  starts : bool;
  ends : bool
}.

(** [handleSpeak(text)]: without a synthesizer the promise is resolved at
    once.  The promise's executor has no [try]: an exception of [cancel],
    of the utterance constructor, of [getVoices] or of [speak] rejects the
    promise, before any state is set.  Otherwise the promise is resolved by
    the utterance's [onend] or [onerror] handler. *)
Definition handleSpeak (w : Turn) (text : jsstring)
  : handler AppState Call unit :=
  if negb (synthesis_present w) then ret tt
  else
    match synthesizer_throws w with
    | Some e => throw e
    | None =>
        await (SynthesisSpeak text (9#10) (11#10) (8#10)) (Normal tt) ;;
        (if starts w then fire "start" (with_speaking true) else ret tt) ;;
        if ends w
        then fire "end"
               (fun s => with_emotion "neutral" (with_speaking false s))
        else fire "error"
               (fun s => with_emotion "confused" (with_speaking false s))
    end.

(** [handleUserInput(text)] *)
Definition handleUserInput (w : Turn) (text : jsstring)
  : handler AppState Call unit :=
  s0 <- get ;;
  if negb (truthy_text (trim text)) then ret tt
  else
    let userMessage :=
      {| id := None; role := User; content := text; emotion := None;
         sources := None; timestamp := now_submit w |} in
    setConversation (fun prev => prev ++ [userMessage]) ;;
    setIsLoading true ;;
    setCurrentEmotion "thinking" ;;
    try_finally
      (try_catch
         (response <- match mode s0 with
                      | Chat => await (ChatAPI text) (reply w)
                      | Query => await (QueryAPI text) (reply w)
                      end ;;
          let aiMessage :=
            {| id := None; role := Assistant; content := Data.text response;
               emotion := Some (r_emotion response); sources := None;
               timestamp := now_reply w |} in
          setConversation (fun prev => prev ++ [aiMessage]) ;;
          setCurrentEmotion (r_emotion response) ;;
          handleSpeak w (Data.text response))
         (fun error =>
            let errorMessage :=
              {| id := None; role := Assistant; content := apology;
                 emotion := Some "confused"; sources := None;
                 timestamp := now_reply w |} in
            setConversation (fun prev => prev ++ [errorMessage]) ;;
            setCurrentEmotion "confused"))
      (setIsLoading false).

(** [clearConversation()] *)
Definition clearConversation : handler AppState Call unit :=
  setConversation (fun _ => []) ;;
  setCurrentEmotion "neutral".

(** [toggleMode()] *)
Definition toggleMode : handler AppState Call unit :=
  setMode (fun prev => match prev with Chat => Query | Query => Chat end) ;;
  clearConversation.

(** [disabled={isLoading || isSpeaking}] *)
Definition disabled (s : AppState) : bool := isLoading s || isSpeaking s.

(** [handleTextSubmit] of frontend/voicecontrols.js; it returns the new
    content of the text field. *)
Definition handleTextSubmit (w : Turn) (textInput : jsstring)
  : handler AppState Call jsstring :=
  s0 <- get ;;
  if truthy_text (trim textInput) && negb (disabled s0)
  then handleUserInput w (trim textInput) ;; ret []
  else ret textInput.

End LegacyApp.

(* ================================================================== *)
(** ** The [useTextToSpeech] hook *)

Module TtsHook.

Local Open Scope handler_scope.

Record HookState : Type := {
  isSpeaking : bool;
  isSupported : bool;
  error : option string;
  currentText : jsstring;
  progress : N
}.

Definition with_speaking (b : bool) (s : HookState) : HookState :=
  {| isSpeaking := b;
     isSupported := isSupported s;
     error := error s;
     currentText := currentText s;
     progress := progress s |}.

Definition with_error (v : option string) (s : HookState) : HookState :=
  {| isSpeaking := isSpeaking s;
     isSupported := isSupported s;
     error := v;
     currentText := currentText s;
     progress := progress s |}.

Definition with_text (v : jsstring) (s : HookState) : HookState :=
  {| isSpeaking := isSpeaking s;
     isSupported := isSupported s;
     error := error s;
     currentText := v;
     progress := progress s |}.

Definition with_progress (v : N) (s : HookState) : HookState :=
  {| isSpeaking := isSpeaking s;
     isSupported := isSupported s;
     error := error s;
     currentText := currentText s;
     progress := v |}.

Definition setIsSpeaking (b : bool) : handler HookState Call unit :=
  set (with_speaking b).

Definition setError (v : option string) : handler HookState Call unit :=
  set (with_error v).

Definition setCurrentText (v : jsstring) : handler HookState Call unit :=
  set (with_text v).

Definition setProgress (v : N) : handler HookState Call unit :=
  set (with_progress v).

(** What the outside world does during one [speak] call: how [/tts] settles,
    whether the audio element is mounted, how [play()] settles, and the
    on-device synthesizer at the first and at the second attempt. *)
Record Request : Type := {
  tts : completion string;
  audio_mounted : bool;
  play : completion unit;
  first_attempt : Speech.Synthesis;
  second_attempt : Speech.Synthesis
}.

(** The remote synthesis path rejects: the [/tts] request fails, or the clip
    is handed to the audio element and [play()] rejects. *)
Definition primary_rejects (w : Request) : bool :=
  throws (tts w) || (audio_mounted w && throws (play w)).

(** The on-device voice works at the second attempt. *)
Definition fallback_succeeds (w : Request) : bool :=
  Speech.synthesis_present (second_attempt w)
  && negb (throws (Speech.utterance (second_attempt w))).

(** [speakWithBrowser(text, emotion)] *)
Definition speakWithBrowser (p : Speech.Synthesis) (text : jsstring)
  (emotion : string) : handler HookState Call unit :=
  enter "speakWithBrowser" ;;
  s0 <- get ;;
  if negb (isSupported s0) then throw "Speech synthesis not supported"
  else
    try_catch
      (setIsSpeaking true ;;
       setCurrentText text ;;
       setError None ;;
       setProgress 0 ;;
       Speech.speak p text emotion ;;
       setIsSpeaking false ;;
       setProgress 100 ;;
       setCurrentText [])
      (fun error =>
         setIsSpeaking false ;;
         setError (Some error) ;;
         setCurrentText [] ;;
         throw error).

(** [speakWithAPI(text, emotion)] *)
Definition speakWithAPI (w : Request) (text : jsstring) (emotion : string)
  : handler HookState Call unit :=
  enter "speakWithAPI" ;;
  try_catch
    (setIsSpeaking true ;;
     setCurrentText text ;;
     setError None ;;
     setProgress 0 ;;
     audioUrl <- Api.convertTextToSpeech (tts w) text emotion ;;
     if audio_mounted w then await (AudioPlay audioUrl) (play w)
     else ret tt)
    (fun error =>
       setIsSpeaking false ;;
       setError (Some error) ;;
       setCurrentText [] ;;
       throw error).

(** [speak(text, emotion, useAPI)] *)
Definition speak (w : Request) (text : jsstring) (emotion : string)
  (useAPI : bool) : handler HookState Call unit :=
  if negb (truthy_text text) || Nat.eqb (List.length (trim text)) 0 then ret tt
  else
    try_catch
      (if useAPI then speakWithAPI w text emotion
       else speakWithBrowser (first_attempt w) text emotion)
      (fun apiError =>
         try_catch
           (speakWithBrowser (second_attempt w) text emotion)
           (fun browserError =>
              setError (Some "Text-to-speech failed") ;;
              throw browserError)).

End TtsHook.

(* ================================================================== *)
(** ** [AudioRecorder] (frontend/src/services/audioRecorder.js) *)

Module Recorder.

(** [MediaRecorder.state] *)
Inductive RecordingState : Type := inactive | recording | paused.

Record MediaRecorder : Type := {
  state : RecordingState;
  mimeType : string
}.

(** A chunk of recorded audio, as bytes. *)
Definition chunk := list N.

Record Blob : Type := {
  bytes : list N;
  type : string
}.

(** The fields of the recorder object that [stopRecording] reads or
    writes. *)
Record AudioRecorder : Type := {
  mediaRecorder : option MediaRecorder;
  audioChunks : list chunk;
  isRecording : bool
}.

(** The events a [MediaRecorder] fires after [stop()]. *)
Inductive Event : Type :=
| DataAvailable (data : chunk)
| Stop
| Error (e : string).

(** The state of the promise [stopRecording] returns. *)
Inductive settled (A : Type) : Type :=
| Pending
| Resolved (a : A)
| Rejected (e : string).
Arguments Pending {A}.
Arguments Resolved {A} a.
Arguments Rejected {A} e.

(** Only the first [resolve] or [reject] settles a promise. *)
Definition settle {A} (p q : settled A) : settled A :=
  match p with
  | Pending => q
  | _ => p
  end.

Definition stopped (m : MediaRecorder) : MediaRecorder :=
  {| state := inactive; mimeType := mimeType m |}.

(** One event, handled by [ondataavailable] (installed by
    [setupEventHandlers]) and by the [onstop] and [onerror] handlers that
    [stopRecording] installs. *)
Definition handle (m : MediaRecorder) (st : settled (option Blob) * AudioRecorder)
  (ev : Event) : settled (option Blob) * AudioRecorder :=
  let (p, r) := st in
  match ev with
  | DataAvailable data =>
      if Nat.ltb 0 (List.length data)
      then (p, {| mediaRecorder := mediaRecorder r;
                  audioChunks := audioChunks r ++ [data];
                  isRecording := isRecording r |})
      else (p, r)
  | Stop =>
      let audioBlob :=
        {| bytes := List.concat (audioChunks r); type := mimeType m |} in
      (settle p (Resolved (Some audioBlob)),
       {| mediaRecorder := mediaRecorder r; audioChunks := [];
          isRecording := false |})
  | Error e =>
      (settle p (Rejected (String.append "Recording error: " e)), r)
  end.

(** [stopRecording()], followed by the events the platform then fires. *)
Definition stopRecording (r : AudioRecorder) (events : list Event)
  : settled (option Blob) * AudioRecorder :=
  match mediaRecorder r with
  | None => (Resolved None, r)
  | Some m =>
      match state m with
      | inactive => (Resolved None, r)
      | _ =>
          fold_left (handle m) events
            (Pending, {| mediaRecorder := Some (stopped m);
                         audioChunks := audioChunks r;
                         isRecording := isRecording r |})
      end
  end.

(** A recording is in progress: a recorder exists and is not inactive. *)
Definition in_progress (r : AudioRecorder) : bool :=
  match mediaRecorder r with
  | Some m => match state m with inactive => false | _ => true end
  | None => false
  end.

End Recorder.

(* ================================================================== *)
(** ** Concrete inputs *)

Module Samples.

Definition hello : jsstring := lit "hello".

Definition question : jsstring := lit "What is Python?".

(** A reply of the backend, with a session token. *)
Definition answer : Response :=
  {| text := lit "It's a language"; r_emotion := "explaining";
     r_session_id := Some "s1"; r_sources := None |}.

(** A reply whose emotion is not one of [EMOTIONS]. *)
Definition angry_answer : Response :=
  {| text := lit "No."; r_emotion := "angry";
     r_session_id := None; r_sources := None |}.

Definition working_synthesis : Speech.Synthesis :=
  {| Speech.synthesis_present := true; Speech.utterance := Normal tt |}.

(** Everything works: the backend answers and the remote clip plays. *)
Definition smooth : App.Turn :=
  {| App.now_submit := 1000; App.now_reply := 1500;
     App.reply := Normal answer; App.tts := Normal "blob:clip";
     App.audio_mounted := true; App.play := Normal tt;
     App.synthesis := working_synthesis |}.

(** The backend is unreachable. *)
Definition offline : App.Turn :=
  {| App.now_submit := 1000; App.now_reply := 1500;
     App.reply := Throw "HTTP 503: Service Unavailable";
     App.tts := Normal "blob:clip";
     App.audio_mounted := true; App.play := Normal tt;
     App.synthesis := working_synthesis |}.

(** The backend answers, [/tts] fails, the on-device voice works. *)
Definition remote_voice_down : App.Turn :=
  {| App.now_submit := 1000; App.now_reply := 1500;
     App.reply := Normal answer; App.tts := Throw "TTS HTTP 500: ";
     App.audio_mounted := true; App.play := Normal tt;
     App.synthesis := working_synthesis |}.

(** The backend answers with an unknown emotion and [/tts] fails. *)
Definition angry_turn : App.Turn :=
  {| App.now_submit := 1000; App.now_reply := 1500;
     App.reply := Normal angry_answer; App.tts := Throw "TTS HTTP 500: ";
     App.audio_mounted := true; App.play := Normal tt;
     App.synthesis := working_synthesis |}.

(** The backend answers with an unknown emotion and the remote clip
    plays. *)
Definition angry_clip : App.Turn :=
  {| App.now_submit := 1000; App.now_reply := 1500;
     App.reply := Normal angry_answer; App.tts := Normal "blob:clip";
     App.audio_mounted := true; App.play := Normal tt;
     App.synthesis := working_synthesis |}.

(** The hook, ready, with on-device synthesis supported. *)
Definition hook_ready : TtsHook.HookState :=
  {| TtsHook.isSpeaking := false; TtsHook.isSupported := true;
     TtsHook.error := None; TtsHook.currentText := [];
     TtsHook.progress := 0 |}.

(** A [speak] call during which every service works. *)
Definition all_fine : TtsHook.Request :=
  {| TtsHook.tts := Normal "blob:clip"; TtsHook.audio_mounted := true;
     TtsHook.play := Normal tt;
     TtsHook.first_attempt := working_synthesis;
     TtsHook.second_attempt := working_synthesis |}.

(** A [speak] call during which the remote services work and the on-device
    voice fails at its first utterance and works at the second. *)
Definition first_utterance_fails : TtsHook.Request :=
  {| TtsHook.tts := Normal "blob:clip"; TtsHook.audio_mounted := true;
     TtsHook.play := Normal tt;
     TtsHook.first_attempt :=
       {| Speech.synthesis_present := true;
          Speech.utterance := Throw "Speech synthesis failed: interrupted" |};
     TtsHook.second_attempt := working_synthesis |}.

(** A [speak] call during which [/tts] fails. *)
Definition tts_down : TtsHook.Request :=
  {| TtsHook.tts := Throw "TTS HTTP 500: "; TtsHook.audio_mounted := true;
     TtsHook.play := Normal tt;
     TtsHook.first_attempt := working_synthesis;
     TtsHook.second_attempt := working_synthesis |}.

Definition legacy_smooth : LegacyApp.Turn :=
  {| LegacyApp.now_submit := 1000; LegacyApp.now_reply := 1500;
     LegacyApp.reply := Normal answer; LegacyApp.synthesis_present := true;
     LegacyApp.synthesizer_throws := None;
     LegacyApp.starts := true; LegacyApp.ends := true |}.

Definition legacy_offline : LegacyApp.Turn :=
  {| LegacyApp.now_submit := 1000; LegacyApp.now_reply := 1500;
     LegacyApp.reply := Throw "HTTP error! status: 503";
     LegacyApp.synthesis_present := true;
     LegacyApp.synthesizer_throws := None;
     LegacyApp.starts := true; LegacyApp.ends := true |}.

(** The backend answers, and the synthesizer's [speak] throws. *)
Definition legacy_throwing : LegacyApp.Turn :=
  {| LegacyApp.now_submit := 1000; LegacyApp.now_reply := 1500;
     LegacyApp.reply := Normal answer; LegacyApp.synthesis_present := true;
     LegacyApp.synthesizer_throws := Some "InvalidStateError";
     LegacyApp.starts := false; LegacyApp.ends := false |}.

(** The backend answers, and the utterance ends with an [error] event. *)
Definition legacy_failing_utterance : LegacyApp.Turn :=
  {| LegacyApp.now_submit := 1000; LegacyApp.now_reply := 1500;
     LegacyApp.reply := Normal answer; LegacyApp.synthesis_present := true;
     LegacyApp.synthesizer_throws := None;
     LegacyApp.starts := true; LegacyApp.ends := false |}.

Definition a_message : Message :=
  {| id := Some 1%N; role := User; content := hello; emotion := None;
     sources := None; timestamp := 1%N |}.

(** A state in the middle of a chat session. *)
Definition in_session : App.AppState :=
  {| App.conversation := [a_message]; App.currentEmotion := "neutral";
     App.isListening := false; App.isSpeaking := false;
     App.isLoading := false; App.mode := Chat;
     App.sessionId := Some "s1"; App.error := None |}.

(** A state in which a turn is waiting for the backend. *)
Definition thinking : App.AppState :=
  {| App.conversation := [a_message]; App.currentEmotion := "thinking";
     App.isListening := false; App.isSpeaking := false;
     App.isLoading := true; App.mode := Chat;
     App.sessionId := None; App.error := None |}.

Definition a_microphone : App.Capture :=
  {| App.recognition_present := true; App.service_listening := false;
     App.recognition := Normal hello |}.

End Samples.

Import Samples.

(* ================================================================== *)
(** ** Properties the claims are stated with *)

Module Props.



(** The machine is Idle: none of the flags is set. *)
Definition idle (s : App.AppState) : bool :=
  negb (App.isLoading s || App.isSpeaking s || App.isListening s).

(** The user Message [handleUserInput] builds. *)
Definition user_message (w : App.Turn) (text : jsstring) : Message :=
  {| id := Some (App.now_submit w); role := User; content := text;
     emotion := None; sources := None; timestamp := App.now_submit w |}.

(** The apology Message of the [catch] block. *)
Definition apology_message (w : App.Turn) : Message :=
  {| id := Some (App.now_reply w + 1)%N; role := Assistant;
     content := apology; emotion := Some "confused"; sources := None;
     timestamp := App.now_reply w |}.

(** The assistant Message built from a response. *)
Definition assistant_message (w : App.Turn) (r : Response) : Message :=
  {| id := Some (App.now_reply w + 1)%N; role := Assistant;
     content := text r; emotion := Some (r_emotion r);
     sources := Some match r_sources r with Some l => l | None => [] end;
     timestamp := App.now_reply w |}.

Definition legacy_user_message (w : LegacyApp.Turn) (text : jsstring)
  : Message :=
  {| id := None; role := User; content := text; emotion := None;
     sources := None; timestamp := LegacyApp.now_submit w |}.

Definition legacy_apology_message (w : LegacyApp.Turn) : Message :=
  {| id := None; role := Assistant; content := apology;
     emotion := Some "confused"; sources := None;
     timestamp := LegacyApp.now_reply w |}.

Definition legacy_assistant_message (w : LegacyApp.Turn) (r : Response)
  : Message :=
  {| id := None; role := Assistant; content := text r;
     emotion := Some (r_emotion r); sources := None;
     timestamp := LegacyApp.now_reply w |}.

(** The state on display while the backend request of a turn is pending:
    the user Message is appended, [isLoading] is set, the emotion is
    [thinking] and the error banner is cleared. *)
Definition accepted (w : App.Turn) (text : jsstring) (s : App.AppState)
  : App.AppState :=
  App.with_error None
    (App.with_emotion "thinking"
       (App.with_loading true
          (App.with_conversation (fun prev => prev ++ [user_message w text])
             s))).

(** The state once the response [r] is recorded, from the pending state
    [s1]; [md] is the mode the callback closed over. *)
Definition replied (w : App.Turn) (r : Response) (md : Mode)
  (s1 : App.AppState) : App.AppState :=
  App.with_emotion (r_emotion r)
    (App.with_conversation (fun prev => prev ++ [assistant_message w r])
       match md with
       | Chat => if truthy (r_session_id r)
                 then App.with_session (r_session_id r) s1
                 else s1
       | Query => s1
       end).

(** The state the [catch] block leaves, from the pending state. *)
Definition failed (w : App.Turn) (s1 : App.AppState) : App.AppState :=
  App.with_conversation (fun prev => prev ++ [apology_message w])
    (App.with_emotion "confused"
       (App.with_error (Some "Failed to get response from AI tutor") s1)).

Definition legacy_accepted (w : LegacyApp.Turn) (text : jsstring)
  (s : LegacyApp.AppState) : LegacyApp.AppState :=
  LegacyApp.with_emotion "thinking"
    (LegacyApp.with_loading true
       (LegacyApp.with_conversation
          (fun prev => prev ++ [legacy_user_message w text]) s)).

Definition legacy_replied (w : LegacyApp.Turn) (r : Response)
  (s1 : LegacyApp.AppState) : LegacyApp.AppState :=
  LegacyApp.with_emotion (r_emotion r)
    (LegacyApp.with_conversation
       (fun prev => prev ++ [legacy_assistant_message w r]) s1).

Definition legacy_failed (w : LegacyApp.Turn) (s1 : LegacyApp.AppState)
  : LegacyApp.AppState :=
  LegacyApp.with_emotion "confused"
    (LegacyApp.with_conversation
       (fun prev => prev ++ [legacy_apology_message w]) s1).

(** The request a turn opens with, from the mode and session of the state. *)
Definition turn_request (s : App.AppState) (text : jsstring) : Call :=
  match App.mode s with
  | Chat => PostChat text (if truthy (App.sessionId s) then App.sessionId s
                           else None)
  | Query => PostQuery text
  end.

Definition legacy_turn_request (s : LegacyApp.AppState) (text : jsstring)
  : LegacyApp.Call :=
  match LegacyApp.mode s with
  | Chat => LegacyApp.ChatAPI text
  | Query => LegacyApp.QueryAPI text
  end.

End Props.

Import Props.

From Stdlib Require Import PeanoNat.

(* ================================================================== *)
(** ** More JavaScript string functions *)

Module Text.

(** [s.startsWith(p)] *)
Fixpoint startsWith (p s : jsstring) : bool :=
  match p, s with
  | [], _ => true
  | a :: p', b :: s' => N.eqb a b && startsWith p' s'
  | _ :: _, [] => false
  end.

(** [s.includes(p)] *)
Fixpoint includes (p s : jsstring) : bool :=
  match s with
  | [] => startsWith p []
  | _ :: r => startsWith p s || includes p r
  end.

(** [s.replace(pat, rep)] for a string pattern: the first occurrence of
    [pat] is replaced.  [rep] is taken literally (the source only uses the
    empty replacement). *)
Fixpoint replace (pat rep s : jsstring) : jsstring :=
  match s with
  | [] => if startsWith pat [] then rep else []
  | c :: r =>
      if startsWith pat s then rep ++ skipn (List.length pat) s
      else c :: replace pat rep r
  end.

(** [\w] of a regular expression without flags: [A-Za-z0-9_]. *)
Definition is_word (c : N) : bool :=
  ((65 <=? c) && (c <=? 90) || (97 <=? c) && (c <=? 122)
   || (48 <=? c) && (c <=? 57) || (c =? 95))%N.

(** [s.replace(/\s+/g, ' ')]: every maximal run of white space becomes one
    space.  [in_run] tells that the previous code unit was white space. *)
Fixpoint collapse_from (in_run : bool) (s : jsstring) : jsstring :=
  match s with
  | [] => []
  | c :: r =>
      if is_white_space c
      then if in_run then collapse_from true r
           else 32%N :: collapse_from true r
      else c :: collapse_from false r
  end.

Definition collapse (s : jsstring) : jsstring := collapse_from false s.

End Text.

(* ================================================================== *)
(** ** frontend/src/utils/helpers.js *)

Module Helpers.

(** Why [validateTextInput] rejects a text: 'Text is required',
    'Text cannot be empty', 'Text must be less than [maxLength]
    characters'. *)
Inductive Rejection : Type :=
| TextRequired
| TextEmpty
| TooLong (maxLength : nat).

(** The object [validateTextInput] returns. *)
Record Validation : Type := {
  valid : bool;
  error : option Rejection
}.

(** [validateTextInput(text, maxLength)] on a string. *)
Definition validateTextInput (text : jsstring) (maxLength : nat) : Validation :=
  if negb (truthy_text text)
  then {| valid := false; error := Some TextRequired |}
  else if Nat.eqb (List.length (trim text)) 0
  then {| valid := false; error := Some TextEmpty |}
  else if Nat.ltb maxLength (List.length text)
  then {| valid := false; error := Some (TooLong maxLength) |}
  else {| valid := true; error := None |}.

(** The punctuation the second regular expression of [sanitizeText] leaves
    in place: full stop, comma, exclamation and question mark, semicolon,
    colon, parentheses, hyphen, apostrophe and double quote. *)
Definition punctuation : list N :=
  [46; 44; 33; 63; 59; 58; 40; 41; 45; 39; 34]%N.

Definition kept (c : N) : bool :=
  Text.is_word c || is_white_space c || existsb (N.eqb c) punctuation.

(** [sanitizeText(text)] *)
Definition sanitizeText (text : jsstring) : jsstring :=
  if negb (truthy_text text) then []
  else filter kept (Text.collapse (trim text)).

(** What [sanitizeText] can return: word characters, the space and the
    listed punctuation. *)
Definition plain (c : N) : bool :=
  Text.is_word c || (c =? 32)%N || existsb (N.eqb c) punctuation.

End Helpers.

(* ================================================================== *)
(** ** [selectVoice] of [SpeechService] *)

Module Voices.

(** A [SpeechSynthesisVoice], as far as [selectVoice] reads it. *)
Record Voice : Type := {
  name : jsstring;
  lang : jsstring
}.

Section Platform.

(** [String.prototype.toLowerCase], the platform's case mapping. *)
Variable toLowerCase : jsstring -> jsstring.

Definition english (v : Voice) : bool := Text.startsWith (lit "en") (lang v).

(** The test of the first [find]. *)
Definition preferred (preferredGender : jsstring) (v : Voice) : bool :=
  english v
  && Text.includes preferredGender (toLowerCase (name v))
  && (Text.includes (lit "us") (toLowerCase (name v))
      || Text.includes (lit "united states") (toLowerCase (name v))).

(** [selectVoice(preferredGender, preferredAccent)] over [this.voices]. *)
Definition selectVoice (voices : list Voice)
  (preferredGender preferredAccent : jsstring) : option Voice :=
  match voices with
  | [] => None
  | first :: _ =>
      match find (preferred preferredGender) voices with
      | Some voice => Some voice
      | None =>
          match find english voices with
          | Some voice => Some voice
          | None => Some first
          end
      end
  end.

End Platform.

(** A case mapping for ASCII names, for concrete runs. *)
Definition ascii_lower (s : jsstring) : jsstring :=
  map (fun c => if (65 <=? c)%N && (c <=? 90)%N then (c + 32)%N else c) s.

End Voices.

(* ================================================================== *)
(** ** More of [AudioRecorder]: [initialize], [startRecording], [cleanup] *)

Module Microphone.

Local Open Scope handler_scope.

(** The recorder object with its [stream] field; a stream is a handle. *)
Record Device : Type := {
  recorder : Recorder.AudioRecorder;
  stream : option N
}.

(** A recorder object as the constructor leaves it. *)
Definition fresh : Device :=
  {| recorder := {| Recorder.mediaRecorder := None;
                    Recorder.audioChunks := [];
                    Recorder.isRecording := false |};
     stream := None |}.

Inductive Call : Type :=
| GetUserMedia.

(** The platform: how [getUserMedia] settles and which MIME types
    [MediaRecorder.isTypeSupported] accepts. *)
Record Platform : Type := {
  getUserMedia : completion N;
  isTypeSupported : string -> bool
}.

(** The candidates of [initialize], in order of preference. *)
Definition mimeTypes : list string :=
  [ "audio/webm;codecs=opus"; "audio/webm"; "audio/mp4"; "audio/wav" ].

(** The loop of [initialize]: the first supported candidate, and
    'audio/webm' when there is none. *)
Definition selectMimeType (supported : string -> bool) : string :=
  match find supported mimeTypes with
  | Some mimeType => mimeType
  | None => "audio/webm"
  end.

Definition with_mediaRecorder (m : option Recorder.MediaRecorder)
  (d : Device) : Device :=
  {| recorder := {| Recorder.mediaRecorder := m;
                    Recorder.audioChunks := Recorder.audioChunks (recorder d);
                    Recorder.isRecording := Recorder.isRecording (recorder d) |};
     stream := stream d |}.

Definition with_chunks (c : list Recorder.chunk) (d : Device) : Device :=
  {| recorder := {| Recorder.mediaRecorder := Recorder.mediaRecorder (recorder d);
                    Recorder.audioChunks := c;
                    Recorder.isRecording := Recorder.isRecording (recorder d) |};
     stream := stream d |}.

Definition with_stream (v : option N) (d : Device) : Device :=
  {| recorder := recorder d; stream := v |}.

(** [initialize()].  The [MediaRecorder] constructor throws a
    NotSupportedError for a MIME type the platform does not support. *)
Definition initialize (p : Platform) : handler Device Call bool :=
  try_catch
    (handle <- await GetUserMedia (getUserMedia p) ;;
     set (with_stream (Some handle)) ;;
     let selectedMimeType := selectMimeType (isTypeSupported p) in
     (if isTypeSupported p selectedMimeType then ret tt
      else throw "NotSupportedError") ;;
     set (with_mediaRecorder
            (Some {| Recorder.state := Recorder.inactive;
                     Recorder.mimeType := selectedMimeType |})) ;;
     ret true)
    (fun error => throw error).

(** [startRecording()] *)
Definition startRecording (p : Platform) : handler Device Call bool :=
  d <- get ;;
  (match Recorder.mediaRecorder (recorder d) with
   | None => initialize p ;; ret tt
   | Some _ => ret tt
   end) ;;
  d' <- get ;;
  match Recorder.mediaRecorder (recorder d') with
  | None => throw "TypeError"
  | Some m =>
      match Recorder.state m with
      | Recorder.inactive =>
          set (with_chunks []) ;;
          set (with_mediaRecorder
                 (Some {| Recorder.state := Recorder.recording;
                          Recorder.mimeType := Recorder.mimeType m |})) ;;
          ret true
      | _ => ret false
      end
  end.

(** The events of a running recorder, handled by the handlers of
    [setupEventHandlers]. *)
Inductive RecordingEvent : Type :=
| Started
| Data (data : Recorder.chunk)
| Stopped
| Failed (e : string).

Definition on_event (r : Recorder.AudioRecorder) (ev : RecordingEvent)
  : Recorder.AudioRecorder :=
  match ev with
  | Data data =>
      if Nat.ltb 0 (List.length data)
      then {| Recorder.mediaRecorder := Recorder.mediaRecorder r;
              Recorder.audioChunks := Recorder.audioChunks r ++ [data];
              Recorder.isRecording := Recorder.isRecording r |}
      else r
  | Started =>
      {| Recorder.mediaRecorder := Recorder.mediaRecorder r;
         Recorder.audioChunks := [];
         Recorder.isRecording := true |}
  | Stopped | Failed _ =>
      {| Recorder.mediaRecorder := Recorder.mediaRecorder r;
         Recorder.audioChunks := Recorder.audioChunks r;
         Recorder.isRecording := false |}
  end.

(** The recorder after a sequence of such events. *)
Definition while_recording (r : Recorder.AudioRecorder)
  (events : list RecordingEvent) : Recorder.AudioRecorder :=
  fold_left on_event events r.

(** [cleanup()] *)
Definition cleanup (d : Device) : Device :=
  {| recorder := {| Recorder.mediaRecorder := None;
                    Recorder.audioChunks := [];
                    Recorder.isRecording := false |};
     stream := None |}.

(** [getRecordingState()] *)
Definition getRecordingState (d : Device) : Recorder.RecordingState :=
  match Recorder.mediaRecorder (recorder d) with
  | Some m => Recorder.state m
  | None => Recorder.inactive
  end.

End Microphone.

(* ================================================================== *)
(** ** Record and upload: [convertSpeechToText] and the recognition hook *)

Module Upload.

Local Open Scope handler_scope.

Inductive Call : Type :=
| StopRecorder
| ReadAsDataURL
| PostStt (audio_base64 : jsstring) (format : string).

Definition is_upload (c : Call) : bool :=
  match c with
  | PostStt _ _ => true
  | _ => false
  end.

(** The data URL [FileReader.readAsDataURL] produces for a blob of the MIME
    type [type] whose content encodes as [payload]. *)
Definition data_url (type : string) (payload : jsstring) : jsstring :=
  lit "data:" ++ lit type ++ lit ";base64," ++ payload.

(** The alphabet of base64: letters, digits, [+], [/] and [=]. *)
Definition is_base64 (c : N) : bool :=
  ((65 <=? c) && (c <=? 90) || (97 <=? c) && (c <=? 122)
   || (48 <=? c) && (c <=? 57) || (c =? 43) || (c =? 47) || (c =? 61))%N.

(** The [onloadend] handler of [blobToBase64], on [reader.result]. *)
Definition strip_prefixes (result : jsstring) : jsstring :=
  Text.replace (lit "data:audio/ogg;base64,") []
    (Text.replace (lit "data:audio/mp3;base64,") []
       (Text.replace (lit "data:audio/wav;base64,") []
          (Text.replace (lit "data:audio/webm;base64,") [] result))).

(** What happens to the upload of one blob: the outcome of the
    [FileReader] (the data URL, or [onerror]) and of the [/stt/base64]
    request (the [text] of the response). *)
Record Transfer : Type := {
  read : completion jsstring;
  stt : completion jsstring
}.

Section Service.

Context {St : Type}.

(** [ApiService.blobToBase64(blob)] *)
Definition blobToBase64 (x : Transfer) : handler St Call jsstring :=
  result <- await ReadAsDataURL (read x) ;;
  ret (strip_prefixes result).

(** The [format] field of the request. *)
Definition format_of (blob : Recorder.Blob) : string :=
  if Text.includes (lit "webm") (lit (Recorder.type blob)) then "webm"
  else "wav".

(** [ApiService.convertSpeechToText(audioBlob)] *)
Definition convertSpeechToText (x : Transfer) (audioBlob : Recorder.Blob)
  : handler St Call jsstring :=
  try_catch
    (base64Audio <- blobToBase64 x ;;
     await (PostStt base64Audio (format_of audioBlob)) (stt x))
    (fun error => throw "Failed to convert speech to text").

End Service.

(** The state of the [useSpeechRecognition] hook. *)
Record HookState : Type := {
  isListening : bool;
  isSupported : bool;
  error : option string;
  transcript : jsstring;
  confidence : Q
}.

Definition with_listening (b : bool) (s : HookState) : HookState :=
  {| isListening := b; isSupported := isSupported s; error := error s;
     transcript := transcript s; confidence := confidence s |}.

Definition with_error (v : option string) (s : HookState) : HookState :=
  {| isListening := isListening s; isSupported := isSupported s; error := v;
     transcript := transcript s; confidence := confidence s |}.

Definition with_transcript (v : jsstring) (s : HookState) : HookState :=
  {| isListening := isListening s; isSupported := isSupported s;
     error := error s; transcript := v; confidence := confidence s |}.

(** How a promise of the recorder shows to an [await]: a pending promise
    never resumes the caller. *)
Definition settlement {A : Type} (p : Recorder.settled A)
  : option (completion A) :=
  match p with
  | Recorder.Pending => None
  | Recorder.Resolved a => Some (Normal a)
  | Recorder.Rejected e => Some (Throw e)
  end.

(** [stopListeningWithRecorder()]; [stopped] is how the promise of
    [audioRecorder.stopRecording()] settles. *)
Definition stopListeningWithRecorder
  (stopped : completion (option Recorder.Blob)) (x : Transfer)
  : handler HookState Call (option jsstring) :=
  try_catch
    (audioBlob <- await StopRecorder stopped ;;
     set (with_listening false) ;;
     match audioBlob with
     | Some blob =>
         transcript <- convertSpeechToText x blob ;;
         set (with_transcript transcript) ;;
         ret (Some transcript)
     | None => ret None
     end)
    (fun error =>
       set (with_error (Some "Failed to process recording")) ;;
       ret None).

End Upload.

(* ================================================================== *)
(** ** Shapes of the Message log *)

Module Shape.

Definition other (r : Role) : Role :=
  match r with User => Assistant | Assistant => User end.

Definition role_eqb (a b : Role) : bool :=
  match a, b with
  | User, User | Assistant, Assistant => true
  | _, _ => false
  end.

(** The roles of the log alternate, starting with [first]. *)
Fixpoint alternates (first : Role) (l : list Message) : bool :=
  match l with
  | [] => true
  | m :: r => role_eqb (role m) first && alternates (other first) r
  end.

(** A text turn with a non-blank text. *)
Definition accepted_turn (c : App.Command) : bool :=
  match c with
  | App.SubmitText text _ => truthy_text (trim text)
  | _ => false
  end.

End Shape.

(* ================================================================== *)
(** ** Outcomes of a capture *)

Module Listening.

(** The capture fails: there is no recognizer, or the recognizer reports
    an error. *)
Definition capture_fails (m : App.Capture) : bool :=
  negb (App.recognition_present m)
  || (negb (App.service_listening m) && throws (App.recognition m)).

(** The capture ends without anything to submit: the service was already
    listening, or the transcript is empty or blank. *)
Definition nothing_heard (m : App.Capture) : bool :=
  App.recognition_present m
  && (App.service_listening m
      || match App.recognition m with
         | Normal t => negb (truthy_text (trim t))
         | Throw _ => false
         end).

(** The state on display while the recognizer is listening. *)
Definition listening (s : App.AppState) : App.AppState :=
  App.with_error None
    (App.with_emotion "listening" (App.with_listening true s)).

End Listening.

(* ================================================================== *)
(** ** The audio element *)

Module Playback.

(** A clip is handed to the hidden audio element: [handleSpeak] sets the
    element's [src], installs its [onended] handler and calls [play()], in
    one block, which the log records as one [AudioPlay] request. *)
Definition is_play (c : Call) : bool :=
  match c with
  | AudioPlay _ => true
  | _ => false
  end.

End Playback.

(* ================================================================== *)
(** * Proofs *)

(** ** JavaScript strings *)

Lemma trimStart_blank (s : jsstring) :
  forallb is_white_space s = true -> trimStart s = [].
Proof.
  induction s as [|c r IH]; cbn; [reflexivity|].
  destruct (is_white_space c); cbn; [exact IH | discriminate].
Qed.

Lemma trimStart_nil_blank (s : jsstring) :
  trimStart s = [] -> forallb is_white_space s = true.
Proof.
  induction s as [|c r IH]; cbn; [reflexivity|].
  destruct (is_white_space c); cbn; [exact IH | discriminate].
Qed.

(** [trim] yields the empty string exactly on strings of white space. *)
Lemma trim_nil_iff (s : jsstring) :
  trim s = [] <-> forallb is_white_space s = true.
Proof.
  unfold trim, trimEnd. split.
  - intro H. apply (f_equal (@rev N)) in H. rewrite rev_involutive in H.
    cbn in H. destruct (trimStart s) as [|c r] eqn:E.
    + now apply trimStart_nil_blank.
    + exfalso. cbn in H.
      assert (W : is_white_space c = false).
      { clear H. induction s as [|d q IH]; cbn in E; [discriminate|].
        destruct (is_white_space d) eqn:D; [now apply IH|].
        now injection E as -> _. }
      apply trimStart_nil_blank in H. rewrite forallb_app in H.
      cbn in H. rewrite W in H. now rewrite andb_false_r in H.
  - intro H. now rewrite (trimStart_blank s H).
Qed.

Lemma truthy_text_trim (text : jsstring) :
  trim text <> [] -> truthy_text (trim text) = true.
Proof. now destruct (trim text). Qed.

Lemma blank_not_truthy (text : jsstring) :
  trim text = [] -> truthy_text (trim text) = false.
Proof. now intros ->. Qed.

(** ** The handlers of [App] *)

Ltac handler_unfold :=
  unfold Api.sendChatMessage, Api.sendQuery, Api.convertTextToSpeech,
    Api.resetConversation, Speech.speak,
    App.setConversation, App.setCurrentEmotion, App.setIsListening,
    App.setIsSpeaking, App.setIsLoading, App.setMode, App.setSessionId,
    App.setError,
    LegacyApp.setConversation, LegacyApp.setCurrentEmotion,
    LegacyApp.setIsLoading, LegacyApp.setMode,
    bind, ret, get, set, throw, await, fire, enter, try_catch, try_finally.

Lemma requests_app {St C : Type} (t u : list (item St C)) :
  requests (t ++ u) = requests t ++ requests u.
Proof. unfold requests. apply flat_map_app. Qed.

(** A blank text leaves [handleUserInput] at its first line. *)
Lemma handleUserInput_blank w text s t :
  trim text = [] -> App.handleUserInput w text s t = (Normal tt, s, t).
Proof.
  intro H. unfold App.handleUserInput, bind, get, ret.
  now rewrite (blank_not_truthy text H).
Qed.

(** [handleSpeak] always returns normally.  It issues the [/tts] request
    first; every suspension shows [isSpeaking]; the on-device voice is asked
    exactly when the remote path rejects, with the table's configuration for
    the emotion; and the flag is cleared again exactly in that case. *)
Lemma handleSpeak_run w text emotion s t :
  exists t',
    App.handleSpeak w text emotion s t =
      (Normal tt,
       if App.primary_rejects w
       then App.with_emotion "neutral"
              (App.with_speaking false (App.with_speaking true s))
       else App.with_speaking true s,
       t ++ Suspended (PostTts text emotion) (App.with_speaking true s) :: t')
    /\ Forall (fun i => rendered i = App.with_speaking true s) t'
    /\ existsb is_on_device (requests t') = App.primary_rejects w
    /\ (App.primary_rejects w = true ->
        In (Suspended (SpeakOnDevice text (Speech.getVoiceConfig emotion))
                      (App.with_speaking true s)) t')
    /\ existsb is_backend_turn_call (requests t') = false.
Proof.
  unfold App.handleSpeak, App.primary_rejects. handler_unfold.
  destruct w as [ns nr reply tts mounted play [present utt]]; cbn.
  destruct tts as [u|e]; cbn.
  - destruct mounted; cbn.
    + destruct play as [[]|e]; cbn.
      * eexists [_]. rewrite <- app_assoc. cbn.
        repeat split; auto; discriminate.
      * destruct present; cbn; [destruct utt as [[]|e3]|]; cbn;
          (eexists [_; _]; repeat rewrite <- app_assoc; cbn;
           repeat split; auto).
    + exists []. repeat split; auto; discriminate.
  - destruct present; cbn; [destruct utt as [[]|e3]|]; cbn;
      (eexists [_]; repeat rewrite <- app_assoc; cbn; repeat split; auto).
Qed.

(** A turn whose backend request rejects. *)
Lemma handleUserInput_rejected w text s t e :
  trim text <> [] -> App.reply w = Throw e ->
  App.handleUserInput w text s t =
    (Normal tt, App.with_loading false (failed w (accepted w text s)),
     t ++ [Suspended (turn_request s text) (accepted w text s)]).
Proof.
  intros H R. unfold App.handleUserInput. handler_unfold.
  rewrite (truthy_text_trim text H). cbv beta iota zeta. cbn [negb].
  unfold turn_request. destruct (App.mode s). all: rewrite R; reflexivity.
Qed.

(** A turn whose backend request resolves goes on with [handleSpeak] and
    then clears [isLoading]. *)
Lemma handleUserInput_resolved w text s t r :
  trim text <> [] -> App.reply w = Normal r ->
  exists t',
    App.handleUserInput w text s t =
      (Normal tt,
       App.with_loading false
         (if App.primary_rejects w
          then App.with_emotion "neutral"
                 (App.with_speaking false
                    (App.with_speaking true
                       (replied w r (App.mode s) (accepted w text s))))
          else App.with_speaking true
                 (replied w r (App.mode s) (accepted w text s))),
       t ++ Suspended (turn_request s text) (accepted w text s)
         :: Suspended (PostTts (Data.text r) (r_emotion r))
              (App.with_speaking true
                 (replied w r (App.mode s) (accepted w text s)))
         :: t')
    /\ Forall (fun i => rendered i =
                 App.with_speaking true
                   (replied w r (App.mode s) (accepted w text s))) t'
    /\ existsb is_on_device (requests t') = App.primary_rejects w
    /\ (App.primary_rejects w = true ->
        In (Suspended
              (SpeakOnDevice (Data.text r) (Speech.getVoiceConfig (r_emotion r)))
              (App.with_speaking true
                 (replied w r (App.mode s) (accepted w text s)))) t')
    /\ existsb is_backend_turn_call (requests t') = false.
Proof.
  intros H R.
  destruct (handleSpeak_run w (Data.text r) (r_emotion r)
              (replied w r (App.mode s) (accepted w text s))
              (t ++ [Suspended (turn_request s text) (accepted w text s)]))
    as (t' & E & F & D & I & B).
  exists t'. repeat split; try assumption.
  rewrite <- app_assoc in E. cbn [app] in E.
  unfold App.handleUserInput. handler_unfold.
  rewrite (truthy_text_trim text H). cbv beta iota zeta. cbn [negb].
  unfold turn_request, replied, accepted in *.
  destruct (App.mode s); rewrite R; cbv beta iota zeta;
    [destruct (truthy (r_session_id r))|]; cbv beta iota zeta.
  all: unfold user_message, assistant_message in *.
  all: unfold turn_request, replied, accepted, App.handleSpeak in *; revert E; handler_unfold; cbv beta iota zeta. 
  all: intro E; rewrite E.
  all: reflexivity.
Qed.


(** ** The handlers of the earlier [App] *)

Lemma legacy_handleUserInput_blank w text s t :
  trim text = [] -> LegacyApp.handleUserInput w text s t = (Normal tt, s, t).
Proof.
  intro H. unfold LegacyApp.handleUserInput, bind, get, ret.
  now rewrite (blank_not_truthy text H).
Qed.


Lemma legacy_handleUserInput_rejected w text s t e :
  trim text <> [] -> LegacyApp.reply w = Throw e ->
  LegacyApp.handleUserInput w text s t =
    (Normal tt,
     LegacyApp.with_loading false
       (legacy_failed w (legacy_accepted w text s)),
     t ++ [Suspended (legacy_turn_request s text)
             (legacy_accepted w text s)]).
Proof.
  intros H R. unfold LegacyApp.handleUserInput. handler_unfold.
  rewrite (truthy_text_trim text H). cbv beta iota zeta. cbn [negb].
  unfold legacy_turn_request. destruct (LegacyApp.mode s); rewrite R;
    reflexivity.
Qed.



(* ================================================================== *)
(** * The claims *)

(** ** Blank input *)

(** C9.  Submitting a text that is empty or consists of white space only
    (its [trim] is the empty string) does nothing, in both versions of
    [handleUserInput] and through the text form: the handler returns at
    once, no Message is appended and no flag, emotion or session changes
    (the state is the same), and no request is issued (the log is empty). *)
Theorem blank_submission_is_noop (text : jsstring) :
  trim text = [] ->
  (forall w s, run (App.handleUserInput w text) s = (Normal tt, s, []))
  /\ (forall w s,
        run (LegacyApp.handleUserInput w text) s = (Normal tt, s, []))
  /\ (forall w s,
        run (App.handleTextSubmit w text) s = (Normal text, s, [])).
Proof.
  intro H. repeat split; intros w s; unfold run.
  - now apply handleUserInput_blank.
  - now apply legacy_handleUserInput_blank.
  - unfold App.handleTextSubmit, bind, get, ret.
    now rewrite (blank_not_truthy text H).
Qed.

(** Blanks, a tab, a line feed and a no-break space. *)
Lemma blank_submission_witness :
  trim [32; 9; 10; 160; 32]%N = []
  /\ run (App.handleUserInput smooth [32; 9; 10; 160; 32]%N) in_session
     = (Normal tt, in_session, []).
Proof.
  split; [reflexivity|].
  apply (proj1 (blank_submission_is_noop [32; 9; 10; 160; 32]%N eq_refl)).
Defined.

(** ** Backend failure *)

(** C3.  When the [/chat] or [/query] request of a turn rejects, the handler
    still returns normally (nothing is thrown to its caller); the log gains
    the user Message followed by exactly one assistant Message with the
    fixed apology text and the emotion confused; the current emotion is
    confused; [isLoading] is false again; [isSpeaking] and [isListening] are
    untouched; and the failed request is the only one issued. *)
Theorem backend_failure_yields_one_apology (text : jsstring) :
  trim text <> [] ->
  (forall w s e, App.reply w = Throw e ->
     let o := run (App.handleUserInput w text) s in
     result o = Normal tt
     /\ App.conversation (final o) =
          App.conversation s ++ [user_message w text; apology_message w]
     /\ App.currentEmotion (final o) = "confused"
     /\ App.isLoading (final o) = false
     /\ App.isSpeaking (final o) = App.isSpeaking s
     /\ App.isListening (final o) = App.isListening s
     /\ requests (log o) = [turn_request s text])
  /\ (forall w s e, LegacyApp.reply w = Throw e ->
     let o := run (LegacyApp.handleUserInput w text) s in
     result o = Normal tt
     /\ LegacyApp.conversation (final o) =
          LegacyApp.conversation s
            ++ [legacy_user_message w text; legacy_apology_message w]
     /\ LegacyApp.currentEmotion (final o) = "confused"
     /\ LegacyApp.isLoading (final o) = false
     /\ LegacyApp.isSpeaking (final o) = LegacyApp.isSpeaking s
     /\ LegacyApp.isListening (final o) = LegacyApp.isListening s
     /\ requests (log o) = [legacy_turn_request s text]).
Proof.
  intro H. split; intros w s e R; unfold run.
  - rewrite (handleUserInput_rejected w text s [] e H R).
    unfold result, final, log. cbn.
    rewrite <- app_assoc. repeat split; reflexivity.
  - rewrite (legacy_handleUserInput_rejected w text s [] e H R).
    unfold result, final, log. cbn.
    rewrite <- app_assoc. repeat split; reflexivity.
Qed.

Lemma backend_failure_witness :
  trim question <> []
  /\ App.reply offline = Throw "HTTP 503: Service Unavailable"
  /\ App.conversation
       (final (run (App.handleUserInput offline question) in_session))
     = [a_message; user_message offline question; apology_message offline].
Proof.
  assert (H : trim question <> []) by (vm_compute; discriminate).
  split; [exact H|]. split; [reflexivity|].
  exact (proj1 (proj2
    (proj1 (backend_failure_yields_one_apology question H)
       offline in_session _ eq_refl))).
Defined.


(** ** The activity flags during a turn *)

(** Recording the response changes neither flag. *)
Lemma replied_flags w r md s1 :
  App.isLoading (replied w r md s1) = App.isLoading s1
  /\ App.isListening (replied w r md s1) = App.isListening s1
  /\ App.isSpeaking (replied w r md s1) = App.isSpeaking s1.
Proof.
  unfold replied. destruct md; [destruct (truthy (r_session_id r))|];
    repeat split.
Qed.

Lemma replied_conversation w r md s1 :
  App.conversation (replied w r md s1)
  = App.conversation s1 ++ [assistant_message w r].
Proof.
  unfold replied. destruct md; [destruct (truthy (r_session_id r))|];
    reflexivity.
Qed.


(** In a voice turn all three flags are set while the reply is spoken. *)
Example flags_overlap_in_a_voice_turn :
  exists x,
    In x (instants (run (App.handleStartListening a_microphone smooth)
                      App.initial))
    /\ App.isLoading x = true
    /\ App.isSpeaking x = true
    /\ App.isListening x = true.
Proof.
  eexists. split; [right; right; left; reflexivity|]. repeat split.
Qed.



(** ** Submissions while a turn is in flight *)

(** C2, as stated, fails: [handleUserInput] called while a turn is waiting
    for the backend ([isLoading] is set) appends Messages and issues a
    second backend request. *)
Lemma turn_accepted_while_thinking :
  let o := run (App.handleUserInput smooth hello) thinking in
  idle thinking = false
  /\ List.length (App.conversation thinking) = 1%nat
  /\ List.length (App.conversation (final o)) = 3%nat
  /\ requests (log o)
     = [PostChat hello None; PostTts (text answer) "explaining";
        AudioPlay "blob:clip"]
  /\ final o <> thinking.
Proof.
  cbn. repeat split. discriminate.
Qed.

(** C2, amended.  The guard is in the text form, not in [handleUserInput]:
    a submission of the form ([handleTextSubmit], in both versions of
    [VoiceControls]) made while [isLoading] or [isSpeaking] is set is
    a no-op: no Message is appended, no request is issued, the state and the
    text field are unchanged, and nothing is queued.  [handleUserInput]
    itself accepts every non-blank text whatever the flags are: it appends
    the user Message and issues the backend request. *)
Theorem form_submission_is_gated :
  (forall w textInput s, App.disabled s = true ->
     run (App.handleTextSubmit w textInput) s = (Normal textInput, s, []))
  /\ (forall w textInput s, LegacyApp.disabled s = true ->
     run (LegacyApp.handleTextSubmit w textInput) s
     = (Normal textInput, s, []))
  /\ (forall w text s, trim text <> [] ->
     let o := run (App.handleUserInput w text) s in
     (exists rest, App.conversation (final o)
                   = App.conversation s ++ user_message w text :: rest)
     /\ hd_error (requests (log o)) = Some (turn_request s text)).
Proof.
  split; [|split].
  - intros w textInput s D. unfold run, App.handleTextSubmit, bind, get, ret.
    rewrite D. now rewrite andb_false_r.
  - intros w textInput s D.
    unfold run, LegacyApp.handleTextSubmit, bind, get, ret.
    rewrite D. now rewrite andb_false_r.
  - intros w txt s H. unfold run. destruct (App.reply w) as [r|e] eqn:R.
    + destruct (handleUserInput_resolved w txt s [] r H R)
        as (t' & E & _). rewrite E. unfold final, log. cbn [fst snd app].
      split; [|reflexivity].
      exists [assistant_message w r].
      pose proof (replied_conversation w r (App.mode s) (accepted w txt s))
        as C.
      destruct (App.primary_rejects w); cbn in *; rewrite C;
        now rewrite <- app_assoc.
    + rewrite (handleUserInput_rejected w txt s [] e H R).
      split; [|reflexivity].
      exists [apology_message w]. cbn. now rewrite <- app_assoc.
Qed.

Lemma form_submission_is_gated_witness :
  App.disabled thinking = true
  /\ run (App.handleTextSubmit smooth hello) thinking
     = (Normal hello, thinking, []).
Proof.
  split; [reflexivity|].
  exact (proj1 form_submission_is_gated smooth hello thinking eq_refl).
Defined.


(** ** Synthesis: the remote path and the on-device fallback *)

Ltac hook_unfold :=
  unfold TtsHook.speakWithAPI, TtsHook.speakWithBrowser,
    TtsHook.setIsSpeaking, TtsHook.setError, TtsHook.setCurrentText,
    TtsHook.setProgress.

(** Case analysis on a membership in an explicit log. *)
Ltac each_item H :=
  cbn in H;
  repeat (destruct H as [H|H];
          [inversion H; subst; first [discriminate | reflexivity]|]);
  contradiction.

Lemma nonblank_speak_guard (text : jsstring) :
  trim text <> [] ->
  negb (truthy_text text) || Nat.eqb (List.length (trim text)) 0 = false.
Proof.
  intro H. destruct text as [|c r]; [now elim H|].
  cbn [truthy_text negb orb]. now destruct (trim (c :: r)).
Qed.

(** The hook's [speak] with the remote path first: [speakWithBrowser] is
    entered exactly when the remote path rejects; if it then works, the call
    returns normally with no error recorded, and the flag was set while the
    on-device voice spoke. *)
Lemma hook_speak_remote_first w text emotion s :
  trim text <> [] ->
  let o := run (TtsHook.speak w text emotion true) s in
  existsb (String.eqb "speakWithBrowser") (calls (log o))
    = TtsHook.primary_rejects w
  /\ (TtsHook.primary_rejects w = true ->
      TtsHook.isSupported s = true ->
      TtsHook.fallback_succeeds w = true ->
      result o = Normal tt
      /\ TtsHook.error (final o) = None
      /\ TtsHook.isSpeaking (final o) = false
      /\ existsb is_on_device (requests (log o)) = true
      /\ forall c x, In (Suspended c x) (log o) -> is_on_device c = true ->
                     TtsHook.isSpeaking x = true).
Proof.
  intro H. unfold run, TtsHook.speak.
  rewrite (nonblank_speak_guard text H).
  unfold TtsHook.primary_rejects, TtsHook.fallback_succeeds.
  hook_unfold. handler_unfold.
  destruct w as [tts mounted play first [present utt]]; cbn.
  destruct s as [spk sup err cur prog]; cbn.
  destruct tts as [u|e]; cbn.
  - destruct mounted; cbn.
    + destruct play as [[]|e]; cbn.
      * split; [reflexivity|discriminate].
      * split; [now destruct sup, present, utt as [[]|?]|].
        intros _ -> P. destruct present; [|discriminate].
        destruct utt as [[]|?]; [|discriminate]. cbn.
        repeat split; try reflexivity.
        intros c x HIn Hc. each_item HIn.
    + split; [reflexivity|discriminate].
  - split; [now destruct sup, present, utt as [[]|?]|].
    intros _ -> P. destruct present; [|discriminate].
    destruct utt as [[]|?]; [|discriminate]. cbn.
    repeat split; try reflexivity.
    intros c x HIn Hc. each_item HIn.
Qed.


(** C4, as stated, fails for a request that does not go to the remote path
    first.  The hook's [speak] with [useAPI = false] starts on-device; when
    that first utterance fails, the fallback of the [catch] block is
    invoked, although the remote path did not reject: it was never tried. *)
Lemma fallback_without_remote_rejection :
  let o := run (TtsHook.speak first_utterance_fails hello "neutral" false)
               hook_ready in
  TtsHook.primary_rejects first_utterance_fails = false
  /\ existsb is_remote_tts (requests (log o)) = false
  /\ calls (log o) = ["speakWithBrowser"; "speakWithBrowser"]
  /\ List.length (filter is_on_device (requests (log o))) = 2%nat
  /\ result o = Normal tt.
Proof. cbn. repeat split. Qed.

(** Without any failure, such a request renders on-device at once. *)
Example on_device_first :
  let o := run (TtsHook.speak all_fine hello "neutral" false) hook_ready in
  existsb is_remote_tts (requests (log o)) = false
  /\ calls (log o) = ["speakWithBrowser"].
Proof. cbn. repeat split. Qed.

(** C4, amended.  For every synthesis request that goes to the remote path
    first ([handleSpeak] of the App, and the hook's [speak] with
    [useAPI = true], its default), the on-device path is invoked exactly
    when the remote path rejects (the [/tts] request fails or [play()]
    rejects).  When the remote path rejects and the on-device voice works,
    the turn completes normally: [handleUserInput] returns, the log holds
    the user Message and the assistant's answer and no apology, no error is
    recorded, [isLoading] and [isSpeaking] are clear at the end, and
    [isSpeaking] was on display while the on-device voice spoke. *)
Theorem fallback_iff_remote_path_rejects :
  (forall w text emotion s,
     existsb is_on_device
       (requests (log (run (App.handleSpeak w text emotion) s)))
     = App.primary_rejects w)
  /\ (forall w text s r,
     trim text <> [] -> App.reply w = Normal r ->
     App.primary_rejects w = true -> App.fallback_succeeds w = true ->
     let o := run (App.handleUserInput w text) s in
     result o = Normal tt
     /\ App.conversation (final o)
        = App.conversation s ++ [user_message w text; assistant_message w r]
     /\ App.error (final o) = None
     /\ App.isLoading (final o) = false
     /\ App.isSpeaking (final o) = false
     /\ existsb is_on_device (requests (log o)) = true
     /\ forall c x, In (Suspended c x) (log o) -> is_on_device c = true ->
                    App.isSpeaking x = true)
  /\ (forall w text emotion s,
     trim text <> [] ->
     let o := run (TtsHook.speak w text emotion true) s in
     existsb (String.eqb "speakWithBrowser") (calls (log o))
       = TtsHook.primary_rejects w
     /\ (TtsHook.primary_rejects w = true ->
         TtsHook.isSupported s = true ->
         TtsHook.fallback_succeeds w = true ->
         result o = Normal tt
         /\ TtsHook.error (final o) = None
         /\ TtsHook.isSpeaking (final o) = false
         /\ existsb is_on_device (requests (log o)) = true
         /\ forall c x, In (Suspended c x) (log o) ->
                        is_on_device c = true ->
                        TtsHook.isSpeaking x = true)).
Proof.
  split; [|split].
  - intros w text emotion s. unfold run.
    destruct (handleSpeak_run w text emotion s []) as (t' & E & _ & D & _).
    rewrite E. unfold log. cbn [snd app]. rewrite <- D. reflexivity.
  - intros w txt s r H R P _. unfold run.
    destruct (handleUserInput_resolved w txt s [] r H R)
      as (t' & E & F & D & _).
    pose proof (replied_conversation w r (App.mode s) (accepted w txt s))
      as C.
    rewrite E, P. unfold result, final, log. cbn [fst snd app].
    split; [reflexivity|]. split; [cbn in *; rewrite C; cbn;
                                   now rewrite <- app_assoc|].
    split; [unfold replied; destruct (App.mode s);
            [destruct (truthy (r_session_id r))|]; reflexivity|].
    split; [reflexivity|]. split; [reflexivity|].
    split.
    + unfold requests, turn_request in *. cbn [flat_map request app].
      destruct (App.mode s); cbn; rewrite D; exact P.
    + intros c x [[= <- <-]|[[= <- <-]|I]] Hc.
      * unfold turn_request in Hc. now destruct (App.mode s).
      * discriminate.
      * rewrite Forall_forall in F. specialize (F _ I). cbn in F.
        now rewrite F.
  - intros w txt emotion s H. now apply hook_speak_remote_first.
Qed.

Lemma fallback_iff_remote_path_rejects_witness :
  trim question <> []
  /\ App.primary_rejects remote_voice_down = true
  /\ App.fallback_succeeds remote_voice_down = true
  /\ result (run (App.handleUserInput remote_voice_down question)
               App.initial) = Normal tt.
Proof.
  assert (H : trim question <> []) by (vm_compute; discriminate).
  split; [exact H|]. split; [reflexivity|]. split; [reflexivity|].
  exact (proj1 (proj1 (proj2 fallback_iff_remote_path_rejects)
                  remote_voice_down question App.initial answer
                  H eq_refl eq_refl eq_refl)).
Defined.


(** ** Emotions that are not in the table *)

(** A tag outside [EMOTIONS] is an own property of neither table. *)
Lemma unrecognized_not_own (tag : string) :
  recognized tag = false ->
  own_property Speech.configs tag = None
  /\ own_property Speech.EMOTION_EXPRESSIONS tag = None.
Proof.
  unfold recognized, EMOTIONS. cbn [existsb]. intro H.
  repeat (apply orb_false_elim in H; destruct H as [? H]).
  cbn [own_property Speech.configs Speech.EMOTION_EXPRESSIONS].
  rewrite !(String.eqb_sym _ tag).
  repeat match goal with E : (tag =? _) = false |- _ => rewrite E; clear E end.
  now split.
Qed.

(** C5, as stated, fails: the backend's tag is stored as it is.  With the
    reply's emotion [angry], which is not in [EMOTIONS], the current emotion
    is [angry] when the turn is over and the clip is playing. *)
Lemma unrecognized_emotion_is_displayed :
  let o := run (App.handleUserInput angry_clip question) App.initial in
  recognized "angry" = false
  /\ result o = Normal tt
  /\ App.currentEmotion (final o) = "angry"
  /\ App.currentEmotion (final o) <> "neutral".
Proof. cbn. repeat split. discriminate. Qed.

(** C5, amended.  A response whose emotion is not one of the recognized
    tags does not fail the turn: [handleUserInput] returns normally and the
    answer is appended.  The current emotion is the backend's tag, stored
    unchanged: it is on display at every suspension of the Speaking phase,
    and the [/tts] request carries it.  Each table lookup made with it falls
    back to its neutral entry, provided the tag is not a property name
    inherited from [Object.prototype]: the voice parameters of the on-device
    synthesis are the neutral entry (rate 1.0, pitch 1.0, volume 0.8, female,
    us), also in the request the fallback makes, and the Mascot shows the
    neutral expression. *)
Theorem unrecognized_emotion_degrades_in_lookups (tag : string) :
  recognized tag = false ->
  (forall w s text r,
     trim text <> [] -> App.reply w = Normal r -> r_emotion r = tag ->
     let o := run (App.handleUserInput w text) s in
     result o = Normal tt
     /\ App.conversation (final o)
        = App.conversation s ++ [user_message w text; assistant_message w r]
     /\ In (PostTts (Data.text r) tag) (requests (log o))
     /\ (forall c x, In (Suspended c x) (log o) ->
                     is_backend_turn_call c = false ->
                     App.currentEmotion x = tag)
     /\ (inherited tag = false -> App.primary_rejects w = true ->
         In (SpeakOnDevice (Data.text r) (Speech.getVoiceConfig "neutral"))
            (requests (log o))))
  /\ (inherited tag = false ->
      Speech.getVoiceConfig tag = Speech.getVoiceConfig "neutral"
      /\ Speech.getVoiceConfig tag
         = Own {| rate := 10#10; pitch := 10#10; volume := 8#10;
                  gender := "female"; accent := "us" |}
      /\ Speech.currentExpression tag = Speech.currentExpression "neutral").
Proof.
  intro U. destruct (unrecognized_not_own tag U) as [V M].
  assert (L : inherited tag = false ->
              Speech.getVoiceConfig tag = Speech.getVoiceConfig "neutral"
              /\ Speech.getVoiceConfig tag
                 = Own {| rate := 10#10; pitch := 10#10; volume := 8#10;
                          gender := "female"; accent := "us" |}
              /\ Speech.currentExpression tag
                 = Speech.currentExpression "neutral").
  { intro I. unfold Speech.getVoiceConfig, Speech.currentExpression,
      get_property. rewrite V, M, I. repeat split. }
  split; [|exact L].
  intros w s txt r H R <-. unfold run.
  destruct (handleUserInput_resolved w txt s [] r H R)
    as (t' & E & F & D & I & _).
  pose proof (replied_conversation w r (App.mode s) (accepted w txt s)) as C.
  rewrite E. unfold result, final, log. cbn [fst snd app].
  split; [reflexivity|]. split; [|split; [|split]].
  - destruct (App.primary_rejects w); cbn in *; rewrite C; cbn;
      now rewrite <- app_assoc.
  - unfold requests. cbn. right. now left.
  - intros c x [[= <- <-]|[[= <- <-]|J]] B.
    + unfold turn_request in B. now destruct (App.mode s).
    + reflexivity.
    + rewrite Forall_forall in F. specialize (F _ J). cbn in F.
      now rewrite F.
  - intros N P. destruct (L N) as (<- & _).
    specialize (I P). unfold requests. cbn [flat_map request app].
    right. right. apply in_flat_map. eexists. split; [exact I|].
    now left.
Qed.

Lemma unrecognized_emotion_witness :
  recognized "angry" = false /\ inherited "angry" = false
  /\ Speech.getVoiceConfig "angry" = Speech.getVoiceConfig "neutral".
Proof.
  split; [reflexivity|]. split; [reflexivity|].
  exact (proj1 (proj2 (unrecognized_emotion_degrades_in_lookups "angry"
                         eq_refl) eq_refl)).
Defined.

(** A tag that is an inherited property name escapes the default. *)
Example inherited_tag_escapes_the_default :
  recognized "constructor" = false
  /\ Speech.getVoiceConfig "constructor" = Inherited "constructor".
Proof. split; reflexivity. Qed.


(** ** The Message log and the session *)

Lemma replied_session w r md s1 :
  App.mode (replied w r md s1) = App.mode s1
  /\ App.sessionId (replied w r md s1) =
       match md with
       | Chat => if truthy (r_session_id r) then r_session_id r
                 else App.sessionId s1
       | Query => App.sessionId s1
       end.
Proof.
  unfold replied. destruct md; [destruct (truthy (r_session_id r))|];
    split; reflexivity.
Qed.

(** Every accepted turn, whatever the outside world does: the handler
    returns normally, its first request is the backend request with the
    session of the state and it is the only backend request, the log grows
    by the user Message and one assistant Message, the mode is kept, and
    the session is replaced only by a truthy [session_id] of a chat
    response. *)
Lemma handleUserInput_turn w text s t :
  trim text <> [] ->
  exists s' t' m,
    App.handleUserInput w text s t
    = (Normal tt, s',
       t ++ Suspended (turn_request s text) (accepted w text s) :: t')
    /\ App.conversation s' = App.conversation s ++ [user_message w text; m]
    /\ App.mode s' = App.mode s
    /\ App.sessionId s' =
         match App.reply w, App.mode s with
         | Normal r, Chat => if truthy (r_session_id r) then r_session_id r
                             else App.sessionId s
         | _, _ => App.sessionId s
         end
    /\ existsb is_backend_turn_call (requests t') = false.
Proof.
  intro H. destruct (App.reply w) as [r|e] eqn:R.
  - destruct (handleUserInput_resolved w text s t r H R)
      as (t' & E & _ & _ & _ & B).
    pose proof (replied_conversation w r (App.mode s) (accepted w text s))
      as C.
    eexists _, _, (assistant_message w r). split; [exact E|].
    split; [|split; [|split]].
    + destruct (App.primary_rejects w); cbn in *; rewrite C; cbn;
        now rewrite <- app_assoc.
    + destruct (replied_session w r (App.mode s) (accepted w text s))
        as [M _].
      destruct (App.primary_rejects w); cbn in *; exact M.
    + destruct (replied_session w r (App.mode s) (accepted w text s))
        as [_ S].
      destruct (App.primary_rejects w); cbn in *; exact S.
    + unfold requests in *. cbn. exact B.
  - rewrite (handleUserInput_rejected w text s t e H R).
    eexists _, [], (apology_message w). split; [reflexivity|].
    cbn. rewrite <- app_assoc. now destruct (App.mode s).
Qed.

(** Turns that succeed, one after the other: each adds two Messages. *)
Lemma log_grows_by_two_per_turn (n : nat) :
  forall s t,
    List.length
      (App.conversation
         (final (App.session (repeat (App.SubmitText question smooth) n)
                   s t)))
    = (List.length (App.conversation s) + 2 * n)%nat.
Proof.
  assert (H : trim question <> []) by (vm_compute; discriminate).
  induction n as [|n IH]; intros s t.
  - cbn. lia.
  - cbn [repeat App.session App.exec]. unfold bind.
    destruct (handleUserInput_turn smooth question s t H)
      as (s' & t' & m & E & C & _).
    rewrite E. rewrite IH, C, length_app. cbn. lia.
Qed.

(** C6.  The log is not bounded.  [CONVERSATION_MAX_MESSAGES] is 100, yet
    after 51 successful turns from the initial state the log holds 102
    Messages; and for every bound there is a session whose log exceeds
    it.  Nothing is ever dropped. *)
Theorem log_outgrows_the_declared_maximum :
  (let o := run (App.session (repeat (App.SubmitText question smooth) 51))
                App.initial in
   result o = Normal tt
   /\ List.length (App.conversation (final o)) = 102%nat
   /\ (CONVERSATION_MAX_MESSAGES
       < List.length (App.conversation (final o)))%nat)
  /\ ~ (exists bound : nat, forall cs,
          (List.length
             (App.conversation (final (run (App.session cs) App.initial)))
           <= bound)%nat).
Proof.
  split.
  - vm_compute. repeat split. lia.
  - intros [bound B].
    specialize (B (repeat (App.SubmitText question smooth) (S bound))).
    unfold run in B. rewrite log_grows_by_two_per_turn in B. cbn in B. lia.
Qed.


(** ** Reset and mode toggle *)

(** [handleClearConversation] when no session exists or the [/reset]
    request resolves: everything is cleared; the only request is the
    [/reset] one, if any. *)
Lemma handleClearConversation_clears reset s t :
  truthy (App.sessionId s) = false \/ reset = Normal tt ->
  exists t',
    App.handleClearConversation reset s t
    = (Normal tt,
       App.with_error None
         (App.with_emotion "neutral"
            (App.with_session None
               (App.with_conversation (fun _ => []) s))),
       t ++ t')
    /\ existsb is_backend_turn_call (requests t') = false.
Proof.
  intro H. unfold App.handleClearConversation. handler_unfold.
  destruct (truthy (App.sessionId s)) eqn:T.
  - destruct H as [H|H]; [discriminate|]. subst reset. cbn.
    eexists [_]. split; reflexivity.
  - exists []. rewrite app_nil_r. split; reflexivity.
Qed.

(** C7, as stated, fails: when a session exists and the [/reset] request
    rejects, the toggle flips the mode but keeps the Messages and the
    session. *)
Lemma toggle_keeps_log_when_reset_fails :
  let o := run (App.handleToggleMode (Throw "HTTP 500: Internal Server Error"))
               in_session in
  App.mode (final o) = Query
  /\ App.conversation (final o) = [a_message]
  /\ App.conversation (final o) <> []
  /\ App.sessionId (final o) = Some "s1".
Proof. cbn. repeat split. discriminate. Qed.

(** C7, amended.  Toggling the mode flips it and, whenever no session
    exists or the backend's [/reset] request resolves, clears the Message
    log, sets [sessionId] to null and the emotion to neutral.  The earlier
    App, which has no session, clears the log and the emotion on every
    toggle. *)
Theorem toggle_mode_starts_new_session :
  (forall reset s,
     truthy (App.sessionId s) = false \/ reset = Normal tt ->
     let o := run (App.handleToggleMode reset) s in
     result o = Normal tt
     /\ App.mode (final o) = App.toggle (App.mode s)
     /\ App.conversation (final o) = []
     /\ App.sessionId (final o) = None
     /\ App.currentEmotion (final o) = "neutral")
  /\ (forall s,
     let o := run LegacyApp.toggleMode s in
     result o = Normal tt
     /\ LegacyApp.mode (final o)
        = match LegacyApp.mode s with Chat => Query | Query => Chat end
     /\ LegacyApp.conversation (final o) = []
     /\ LegacyApp.currentEmotion (final o) = "neutral").
Proof.
  split.
  - intros reset s H.
    change (run (App.handleToggleMode reset) s)
      with (App.handleClearConversation reset (App.with_mode App.toggle s) []).
    destruct (handleClearConversation_clears reset
                (App.with_mode App.toggle s) [] H) as (t' & E & _).
    rewrite E. repeat split.
  - intro s. repeat split.
Qed.

Lemma toggle_mode_witness :
  (truthy (App.sessionId in_session) = false
   \/ Normal tt = Normal tt :> completion unit)
  /\ App.conversation
       (final (run (App.handleToggleMode (Normal tt)) in_session)) = [].
Proof.
  split; [now right|].
  exact (proj1 (proj2 (proj2
    (proj1 toggle_mode_starts_new_session (Normal tt) in_session
       (or_intror eq_refl))))).
Defined.

(** ** The session token *)

Lemma filter_none {A : Type} (f : A -> bool) (l : list A) :
  existsb f l = false -> filter f l = [].
Proof.
  induction l as [|a l IH]; cbn; [reflexivity|].
  destruct (f a); cbn; [discriminate|exact IH].
Qed.






(** ** The audio recorder *)

(** C10.  [stopRecording] called when no [MediaRecorder] exists or when the
    recorder is inactive resolves with [null] at once: whatever events
    follow, the promise is not rejected and carries no blob, and the
    recorder object is unchanged.  A blob is produced only when a recording
    was in progress. *)
Theorem stop_without_recording_resolves_null
  (r : Recorder.AudioRecorder) (events : list Recorder.Event) :
  (Recorder.in_progress r = false ->
   Recorder.stopRecording r events = (Recorder.Resolved None, r))
  /\ (forall blob,
        fst (Recorder.stopRecording r events)
        = Recorder.Resolved (Some blob) ->
        Recorder.in_progress r = true).
Proof.
  unfold Recorder.stopRecording, Recorder.in_progress.
  destruct (Recorder.mediaRecorder r) as [m|]; [|split; [reflexivity|]].
  - destruct (Recorder.state m); split;
      (reflexivity || discriminate || (intros; reflexivity)).
  - discriminate.
Qed.

Lemma stop_without_recording_witness :
  Recorder.in_progress
    {| Recorder.mediaRecorder :=
         Some {| Recorder.state := Recorder.inactive;
                 Recorder.mimeType := "audio/webm" |};
       Recorder.audioChunks := [[1; 2; 3]%N];
       Recorder.isRecording := false |} = false
  /\ fst (Recorder.stopRecording
            {| Recorder.mediaRecorder :=
                 Some {| Recorder.state := Recorder.inactive;
                         Recorder.mimeType := "audio/webm" |};
               Recorder.audioChunks := [[1; 2; 3]%N];
               Recorder.isRecording := false |}
            [Recorder.DataAvailable [4]%N; Recorder.Stop])
     = Recorder.Resolved None.
Proof.
  split; [reflexivity|].
  exact (f_equal fst
    (proj1 (stop_without_recording_resolves_null
              {| Recorder.mediaRecorder :=
                   Some {| Recorder.state := Recorder.inactive;
                           Recorder.mimeType := "audio/webm" |};
                 Recorder.audioChunks := [[1; 2; 3]%N];
                 Recorder.isRecording := false |}
              [Recorder.DataAvailable [4]%N; Recorder.Stop]) eq_refl)).
Defined.

(** When a recording is in progress, the [stop] event resolves the promise
    with the recorded chunks as one blob. *)
Example stop_while_recording_yields_blob :
  Recorder.stopRecording
    {| Recorder.mediaRecorder :=
         Some {| Recorder.state := Recorder.recording;
                 Recorder.mimeType := "audio/webm" |};
       Recorder.audioChunks := [[1; 2; 3]%N];
       Recorder.isRecording := true |}
    [Recorder.DataAvailable [4]%N; Recorder.Stop]
  = (Recorder.Resolved
       (Some {| Recorder.bytes := [1; 2; 3; 4]%N;
                Recorder.type := "audio/webm" |}),
     {| Recorder.mediaRecorder :=
          Some {| Recorder.state := Recorder.inactive;
                  Recorder.mimeType := "audio/webm" |};
        Recorder.audioChunks := [];
        Recorder.isRecording := false |}).
Proof. reflexivity. Qed.


(** ** Further runs on the concrete inputs *)

(** The earlier App: [isLoading] and [isSpeaking] are on display together
    once the utterance has started. *)
Example legacy_flags_overlap :
  In (Fired "start"
        (LegacyApp.with_speaking true
           (legacy_replied legacy_smooth answer
              (legacy_accepted legacy_smooth question LegacyApp.initial))))
     (log (run (LegacyApp.handleUserInput legacy_smooth question)
               LegacyApp.initial))
  /\ LegacyApp.isLoading
       (legacy_replied legacy_smooth answer
          (legacy_accepted legacy_smooth question LegacyApp.initial)) = true.
Proof. split; [right; right; left|]; reflexivity. Qed.

(** The earlier App, backend unreachable: the apology and nothing spoken. *)
Example legacy_apology :
  run (LegacyApp.handleUserInput legacy_offline question) LegacyApp.initial
  = (Normal tt,
     {| LegacyApp.isListening := false; LegacyApp.isSpeaking := false;
        LegacyApp.currentEmotion := "confused";
        LegacyApp.conversation :=
          [legacy_user_message legacy_offline question;
           legacy_apology_message legacy_offline];
        LegacyApp.isLoading := false; LegacyApp.mode := Chat |},
     [Suspended (LegacyApp.ChatAPI question)
        (legacy_accepted legacy_offline question LegacyApp.initial)]).
Proof. reflexivity. Qed.

(** An unknown emotion with the remote voice down: the on-device voice
    speaks with the neutral parameters, and the emotion is neutral again
    when it is done. *)
Example angry_reply_spoken_on_device :
  let o := run (App.handleUserInput angry_turn question) App.initial in
  requests (log o)
  = [PostChat question None; PostTts (text angry_answer) "angry";
     SpeakOnDevice (text angry_answer)
       (Own {| rate := 10#10; pitch := 10#10; volume := 8#10;
               gender := "female"; accent := "us" |})]
  /\ App.currentEmotion (final o) = "neutral"
  /\ App.isSpeaking (final o) = false.
Proof. cbn. repeat split. Qed.

(** The hook, remote voice down: the fallback speaks and no error is
    left. *)
Example hook_falls_back :
  let o := run (TtsHook.speak tts_down hello "happy" true) hook_ready in
  result o = Normal tt
  /\ calls (log o) = ["speakWithAPI"; "speakWithBrowser"]
  /\ TtsHook.error (final o) = None
  /\ TtsHook.progress (final o) = 100%N.
Proof. cbn. repeat split. Qed.

(** The scenario of the specification: one question, one answer. *)
Example what_is_python :
  let o := run (App.session [App.SubmitText question smooth;
                             App.PlaybackEnded]) App.initial in
  App.conversation (final o)
  = [user_message smooth question; assistant_message smooth answer]
  /\ map App.currentEmotion (map rendered (log o))
     = ["thinking"; "explaining"; "explaining"]
  /\ App.currentEmotion (final o) = "neutral"
  /\ idle (final o) = true.
Proof. cbn. repeat split. Qed.

(* ================================================================== *)
(** * Further properties of the code *)

(** ** [trim] *)

(** A string that is empty or starts with a code unit that is not white
    space. *)
Lemma trimStart_split (s : jsstring) :
  exists w, s = w ++ trimStart s /\ forallb is_white_space w = true.
Proof.
  induction s as [|c r (w & E & W)]; [now exists []|].
  cbn. destruct (is_white_space c) eqn:C.
  - exists (c :: w). cbn. rewrite C, W. now rewrite <- E.
  - now exists [].
Qed.

Lemma trimStart_head (s : jsstring) :
  match trimStart s with
  | [] => True
  | c :: _ => is_white_space c = false
  end.
Proof.
  induction s as [|c r IH]; cbn; [exact I|].
  destruct (is_white_space c) eqn:C; [exact IH|exact C].
Qed.

Lemma trimStart_clean (s : jsstring) :
  match s with [] => True | c :: _ => is_white_space c = false end ->
  trimStart s = s.
Proof. destruct s as [|c r]; cbn; [reflexivity|]. now intros ->. Qed.

Lemma trimEnd_split (s : jsstring) :
  exists w, s = trimEnd s ++ w /\ forallb is_white_space w = true.
Proof.
  unfold trimEnd. destruct (trimStart_split (rev s)) as (w & E & W).
  exists (rev w). split.
  - rewrite <- rev_app_distr, <- E. now rewrite rev_involutive.
  - rewrite forallb_forall in *. intros x Hx. apply W. now apply in_rev.
Qed.

Lemma trim_head (s : jsstring) :
  match trim s with [] => True | c :: _ => is_white_space c = false end.
Proof.
  unfold trim. pose proof (trimStart_head s) as H.
  destruct (trimEnd_split (trimStart s)) as (w & E & _).
  destruct (trimEnd (trimStart s)) as [|c r]; [exact I|].
  rewrite E in H. exact H.
Qed.

(** Trimming twice is trimming once. *)
Lemma trim_idempotent (s : jsstring) : trim (trim s) = trim s.
Proof.
  pose proof (trim_head s) as H.
  unfold trim at 1. rewrite (trimStart_clean _ H).
  unfold trimEnd. rewrite trimStart_clean; [apply rev_involutive|].
  unfold trim, trimEnd. rewrite rev_involutive. apply trimStart_head.
Qed.

Lemma trim_length (s : jsstring) :
  (List.length (trim s) <= List.length s)%nat.
Proof.
  unfold trim.
  destruct (trimEnd_split (trimStart s)) as (w & E & _).
  destruct (trimStart_split s) as (v & F & _).
  rewrite F at 2. rewrite E at 2. rewrite !length_app. lia.
Qed.

(** ** [validateTextInput] and [sanitizeText] *)

(** X1.  [validateTextInput] accepts a text exactly when it holds a code
    unit that is not white space and is at most [maxLength] code units
    long; and it rejects a text as missing or empty exactly when
    [handleUserInput] ignores it (its [trim] is empty). *)
Theorem validateTextInput_accepts_iff (text : jsstring) (maxLength : nat) :
  (Helpers.valid (Helpers.validateTextInput text maxLength) = true
   <-> forallb is_white_space text = false
       /\ (List.length text <= maxLength)%nat)
  /\ (trim text = []
      <-> Helpers.error (Helpers.validateTextInput text maxLength)
            = Some Helpers.TextRequired
          \/ Helpers.error (Helpers.validateTextInput text maxLength)
            = Some Helpers.TextEmpty).
Proof.
  unfold Helpers.validateTextInput.
  destruct text as [|c r]; cbn [truthy_text negb].
  - cbn. split; [split; [discriminate|intros [? _]; discriminate]|].
    split; [now left|reflexivity].
  - destruct (Nat.eqb_spec (List.length (trim (c :: r))) 0) as [E|E].
    + apply length_zero_iff_nil in E. pose proof E as W.
      apply trim_nil_iff in W. cbn [Helpers.valid Helpers.error].
      split; [split; [discriminate|]|split; [now right|intros _; exact E]].
      intros [B _]. rewrite W in B. discriminate.
    + assert (T : trim (c :: r) <> []).
      { intro T. apply E. now rewrite T. }
      assert (W : forallb is_white_space (c :: r) = false).
      { destruct (forallb is_white_space (c :: r)) eqn:W; [|reflexivity].
        apply trim_nil_iff in W. contradiction. }
      destruct (Nat.ltb_spec maxLength (List.length (c :: r))) as [L|L];
        cbn [Helpers.valid Helpers.error].
      * split; [split; [discriminate|intros [_ ?]; lia]|].
        split; [contradiction|intros [?|?]; discriminate].
      * split; [split; [now split|reflexivity]|].
        split; [contradiction|intros [?|?]; discriminate].
Qed.

Lemma collapse_white_is_space (b : bool) (s : jsstring) :
  Forall (fun c => is_white_space c = true -> c = 32%N)
         (Text.collapse_from b s).
Proof.
  revert b. induction s as [|c r IH]; intro b; cbn; [constructor|].
  destruct (is_white_space c) eqn:C.
  - destruct b; [apply IH|]. constructor; [reflexivity|apply IH].
  - constructor; [|apply IH]. rewrite C. discriminate.
Qed.

Lemma collapse_length (b : bool) (s : jsstring) :
  (List.length (Text.collapse_from b s) <= List.length s)%nat.
Proof.
  revert b. induction s as [|c r IH]; intro b; cbn; [lia|].
  pose proof (IH true). pose proof (IH false).
  destruct (is_white_space c); [destruct b|]; cbn; lia.
Qed.

(** X2.  Whatever the text, [sanitizeText] returns only word characters
    ([A-Za-z0-9_]), spaces and the punctuation [.,!?;:()-'] and the double
    quote: every other code unit is removed and every white space that is
    kept is a plain space.  The result is never longer than the text. *)
Theorem sanitizeText_is_plain (text : jsstring) :
  forallb Helpers.plain (Helpers.sanitizeText text) = true
  /\ (List.length (Helpers.sanitizeText text) <= List.length text)%nat.
Proof.
  unfold Helpers.sanitizeText. destruct (truthy_text text); cbn [negb].
  - split.
    + apply forallb_forall. intros c Hc. apply filter_In in Hc as [Hc K].
      pose proof (collapse_white_is_space false (trim text)) as W.
      rewrite Forall_forall in W. specialize (W c Hc).
      unfold Helpers.kept in K. unfold Helpers.plain.
      destruct (Text.is_word c); [reflexivity|].
      destruct (is_white_space c).
      * rewrite (W eq_refl). reflexivity.
      * cbn [orb] in *. rewrite K. now rewrite orb_true_r.
    + pose proof (filter_length_le Helpers.kept
                    (Text.collapse (trim text))).
      pose proof (collapse_length false (trim text)).
      pose proof (trim_length text). unfold Text.collapse in *. lia.
  - split; [reflexivity|cbn; lia].
Qed.

(** Removing a character can leave two spaces side by side: the result is
    not always a fixed point of [sanitizeText]. *)
Example sanitizeText_not_idempotent :
  Helpers.sanitizeText (lit "a @ b") = lit "a  b"
  /\ Helpers.sanitizeText (lit "a  b") = lit "a b".
Proof. split; reflexivity. Qed.

(** ** The App: synthesis, turns, capture, reset *)

(** X3.  [handleSpeak] never throws, whatever fails.  It changes only
    [isSpeaking] and the emotion.  When the remote path rejects, it ends
    with [isSpeaking] cleared and the emotion neutral, also when the
    on-device voice fails too, and no error is recorded; when the remote
    path does not reject, it returns with [isSpeaking] still set (only the
    [onended] handler of the audio element clears it). *)
Theorem handleSpeak_always_settles w text emotion s :
  let o := run (App.handleSpeak w text emotion) s in
  result o = Normal tt
  /\ final o = (if App.primary_rejects w
                then App.with_emotion "neutral" (App.with_speaking false s)
                else App.with_speaking true s).
Proof.
  unfold run. destruct (handleSpeak_run w text emotion s []) as (t' & E & _).
  rewrite E. unfold result, final. cbn [fst snd].
  destruct (App.primary_rejects w); split; reflexivity.
Qed.

(** The outcome of an accepted turn, from any log. *)
Lemma turn_outcome w text s t :
  trim text <> [] ->
  exists s' t',
    App.handleUserInput w text s t
    = (Normal tt, s',
       t ++ Suspended (turn_request s text) (accepted w text s) :: t')
    /\ App.conversation s'
       = App.conversation s
           ++ [user_message w text;
               match App.reply w with
               | Normal r => assistant_message w r
               | Throw _ => apology_message w
               end]
    /\ App.isLoading s' = false
    /\ App.isListening s' = App.isListening s
    /\ App.error s'
       = match App.reply w with
         | Normal _ => None
         | Throw _ => Some "Failed to get response from AI tutor"
         end
    /\ existsb is_backend_turn_call (requests t') = false
    /\ Forall (fun i => App.isListening (rendered i) = App.isListening s) t'.
Proof.
  intro H. destruct (App.reply w) as [r|e] eqn:R.
  - destruct (handleUserInput_resolved w text s t r H R)
      as (t' & E & F & _ & _ & B).
    pose proof (replied_conversation w r (App.mode s) (accepted w text s))
      as C.
    pose proof (replied_flags w r (App.mode s) (accepted w text s))
      as (_ & L & _).
    eexists _, _. split; [exact E|].
    split; [|split; [|split; [|split; [|split]]]].
    + destruct (App.primary_rejects w); cbn in *; rewrite C; cbn;
        now rewrite <- app_assoc.
    + now destruct (App.primary_rejects w).
    + destruct (App.primary_rejects w); cbn in *; exact L.
    + unfold replied.
      destruct (App.primary_rejects w), (App.mode s);
        try destruct (truthy (r_session_id r)); reflexivity.
    + unfold requests in *. cbn. exact B.
    + constructor; [exact L|].
      eapply Forall_impl; [|exact F]. intros i ->. exact L.
  - rewrite (handleUserInput_rejected w text s t e H R).
    eexists _, []. split; [reflexivity|].
    cbn. rewrite <- app_assoc. repeat split. constructor.
Qed.

(** X4.  Every accepted turn is contained, whatever the backend and both
    synthesis paths do: [handleUserInput] returns normally with [isLoading]
    cleared; the log has grown by the user Message and one assistant
    Message, the answer when the backend resolved and the apology when it
    rejected; exactly one backend request was made; and the error banner is
    set exactly when the backend rejected (a synthesis failure never sets
    it). *)
Theorem every_turn_is_contained w text s :
  trim text <> [] ->
  let o := run (App.handleUserInput w text) s in
  result o = Normal tt
  /\ App.isLoading (final o) = false
  /\ App.conversation (final o)
     = App.conversation s
         ++ [user_message w text;
             match App.reply w with
             | Normal r => assistant_message w r
             | Throw _ => apology_message w
             end]
  /\ filter is_backend_turn_call (requests (log o)) = [turn_request s text]
  /\ App.error (final o)
     = match App.reply w with
       | Normal _ => None
       | Throw _ => Some "Failed to get response from AI tutor"
       end.
Proof.
  intro H. unfold run.
  destruct (turn_outcome w text s [] H)
    as (s' & t' & E & C & L & _ & R & B & _).
  rewrite E. unfold result, final, log. cbn [fst snd app].
  repeat split; try assumption.
  change (?a :: t') with ([a] ++ t').
  rewrite requests_app, filter_app, (filter_none _ _ B).
  unfold turn_request. now destruct (App.mode s).
Qed.

Lemma every_turn_is_contained_witness :
  trim question <> []
  /\ App.error
       (final (run (App.handleUserInput remote_voice_down question)
                 App.initial)) = None.
Proof.
  assert (H : trim question <> []) by (vm_compute; discriminate).
  split; [exact H|].
  exact (proj2 (proj2 (proj2 (proj2
    (every_turn_is_contained remote_voice_down question App.initial H))))).
Defined.

(** X5.  In query mode a turn neither sends nor stores a session: the only
    backend request is the [/query] request with the question alone, and
    [sessionId] is what it was, whatever the response carries. *)
Theorem query_mode_ignores_sessions w text s :
  trim text <> [] -> App.mode s = Query ->
  let o := run (App.handleUserInput w text) s in
  filter is_backend_turn_call (requests (log o)) = [PostQuery text]
  /\ App.sessionId (final o) = App.sessionId s.
Proof.
  intros H M. unfold run.
  destruct (handleUserInput_turn w text s [] H)
    as (s' & t' & m & E & _ & _ & S & B).
  rewrite E. unfold final, log. cbn [fst snd app]. split.
  - change (?a :: t') with ([a] ++ t').
    rewrite requests_app, filter_app, (filter_none _ _ B).
    unfold turn_request. now rewrite M.
  - rewrite S, M. now destruct (App.reply w).
Qed.

Lemma query_mode_ignores_sessions_witness :
  trim question <> []
  /\ r_session_id answer = Some "s1"
  /\ App.sessionId
       (final (run (App.handleUserInput smooth question)
                 (App.with_mode App.toggle App.initial))) = None.
Proof.
  assert (H : trim question <> []) by (vm_compute; discriminate).
  split; [exact H|]. split; [reflexivity|].
  exact (proj2 (query_mode_ignores_sessions smooth question
                  (App.with_mode App.toggle App.initial) H eq_refl)).
Defined.

(** X6.  A capture that fails (no recognizer, or the recognizer reports an
    error) ends the voice turn without a trace in the conversation:
    [handleStartListening] returns normally, no Message is appended, no
    backend request is made, the session is kept, [isListening] is cleared,
    the emotion is confused and the error banner holds the fixed
    speech-recognition message. *)
Theorem capture_failure_appends_nothing m w s :
  Listening.capture_fails m = true ->
  let o := run (App.handleStartListening m w) s in
  result o = Normal tt
  /\ App.conversation (final o) = App.conversation s
  /\ App.sessionId (final o) = App.sessionId s
  /\ App.isListening (final o) = false
  /\ App.isLoading (final o) = App.isLoading s
  /\ App.currentEmotion (final o) = "confused"
  /\ App.error (final o)
     = Some "Speech recognition failed. Please try typing instead."
  /\ existsb is_backend_turn_call (requests (log o)) = false.
Proof.
  unfold Listening.capture_fails, run, App.handleStartListening,
    App.startListening. handler_unfold.
  destruct m as [present busy rec]; cbn.
  destruct present; cbn.
  - destruct busy; cbn; [discriminate|].
    destruct rec as [t|e]; cbn; [discriminate|].
    intros _. repeat split.
  - intros _. repeat split.
Qed.

Lemma capture_failure_witness :
  Listening.capture_fails
    {| App.recognition_present := true; App.service_listening := false;
       App.recognition :=
         Throw "Microphone access denied. Please allow microphone access." |}
  = true
  /\ App.conversation
       (final (run (App.handleStartListening
                      {| App.recognition_present := true;
                         App.service_listening := false;
                         App.recognition :=
                           Throw "Microphone access denied. Please allow microphone access." |}
                      smooth) in_session))
     = [a_message].
Proof.
  split; [reflexivity|].
  exact (proj1 (proj2 (capture_failure_appends_nothing
    {| App.recognition_present := true; App.service_listening := false;
       App.recognition :=
         Throw "Microphone access denied. Please allow microphone access." |}
    smooth in_session eq_refl))).
Defined.

(** X7.  A capture that yields a non-blank transcript feeds it to
    [handleUserInput] as it is: the log grows by the user Message with the
    transcript and one assistant Message; [isListening] is on display at
    every instant until the whole turn, playback request included, is over,
    and it is cleared at the end; the recognizer is asked first and exactly
    one backend request follows. *)
Theorem heard_transcript_becomes_a_turn m w s transcript :
  App.recognition_present m = true -> App.service_listening m = false ->
  App.recognition m = Normal transcript -> trim transcript <> [] ->
  let o := run (App.handleStartListening m w) s in
  result o = Normal tt
  /\ App.conversation (final o)
     = App.conversation s
         ++ [user_message w transcript;
             match App.reply w with
             | Normal r => assistant_message w r
             | Throw _ => apology_message w
             end]
  /\ Forall (fun i => App.isListening (rendered i) = true) (log o)
  /\ App.isListening (final o) = false
  /\ hd_error (requests (log o)) = Some Recognize
  /\ filter is_backend_turn_call (requests (log o))
     = [turn_request s transcript].
Proof.
  intros P B R H.
  assert (T : truthy_text transcript = true).
  { destruct transcript; [now elim H|reflexivity]. }
  unfold run, App.handleStartListening, App.startListening.
  rewrite P, B, R. handler_unfold. cbv beta iota zeta. cbn [negb].
  rewrite T.
  destruct (turn_outcome w transcript (Listening.listening s)
              ([] ++ [Suspended Recognize (Listening.listening s)]) H)
    as (s' & t' & E & C & _ & _ & _ & N & F).
  unfold Listening.listening in *.
  unfold App.setIsListening, App.setCurrentEmotion, App.setError, set in *.
  rewrite E. cbn [app]. unfold result, final, log. cbn [fst snd].
  split; [reflexivity|]. split; [exact C|].
  split; [|split; [reflexivity|split; [reflexivity|]]].
  - constructor; [reflexivity|]. constructor; [reflexivity|]. exact F.
  - change (?a :: ?b :: t') with ([a] ++ [b] ++ t').
    rewrite !requests_app, !filter_app, (filter_none _ _ N).
    unfold turn_request. cbn. now destruct (App.mode s).
Qed.

Lemma heard_transcript_witness :
  trim hello <> []
  /\ App.isListening
       (final (run (App.handleStartListening a_microphone smooth)
                 App.initial)) = false.
Proof.
  assert (H : trim hello <> []) by (vm_compute; discriminate).
  split; [exact H|].
  exact (proj1 (proj2 (proj2 (proj2
    (heard_transcript_becomes_a_turn a_microphone smooth App.initial hello
       eq_refl eq_refl eq_refl H))))).
Defined.

(** X8.  A capture that ends with nothing to submit (the service was
    already listening, or the transcript is empty or blank) starts no turn:
    nothing is appended, no backend request is made, no error is shown and
    [isListening] is cleared; the emotion is left at listening. *)
Theorem nothing_heard_starts_no_turn m w s :
  Listening.nothing_heard m = true ->
  let o := run (App.handleStartListening m w) s in
  result o = Normal tt
  /\ App.conversation (final o) = App.conversation s
  /\ App.sessionId (final o) = App.sessionId s
  /\ App.isListening (final o) = false
  /\ App.isLoading (final o) = App.isLoading s
  /\ App.currentEmotion (final o) = "listening"
  /\ App.error (final o) = None
  /\ existsb is_backend_turn_call (requests (log o)) = false.
Proof.
  unfold Listening.nothing_heard, run, App.handleStartListening,
    App.startListening.
  destruct m as [present busy rec]; cbn [App.recognition_present
    App.service_listening App.recognition].
  destruct present; [|discriminate]. cbn [andb negb].
  destruct busy; cbn [orb].
  - intros _. handler_unfold. cbn. repeat split.
  - destruct rec as [t|e]; [|discriminate]. intro N.
    apply negb_true_iff in N.
    handler_unfold. cbv beta iota zeta.
    destruct (truthy_text t) eqn:T.
    + unfold App.handleUserInput, bind, get, ret. rewrite N. cbn.
      repeat split.
    + cbn. repeat split.
Qed.

Lemma nothing_heard_witness :
  Listening.nothing_heard
    {| App.recognition_present := true; App.service_listening := false;
       App.recognition := Normal [32; 32]%N |} = true
  /\ App.currentEmotion
       (final (run (App.handleStartListening
                      {| App.recognition_present := true;
                         App.service_listening := false;
                         App.recognition := Normal [32; 32]%N |}
                      smooth) App.initial)) = "listening".
Proof.
  split; [reflexivity|].
  exact (proj1 (proj2 (proj2 (proj2 (proj2 (proj2
    (nothing_heard_starts_no_turn
       {| App.recognition_present := true; App.service_listening := false;
          App.recognition := Normal [32; 32]%N |}
       smooth App.initial eq_refl))))))).
Defined.

(** X9.  A reset that fails is silent.  When a session exists and the
    [/reset] request rejects, [handleClearConversation] returns normally
    and leaves the whole state as it was, error banner included; its one
    request carried the session.  When no session exists, no request is
    made at all. *)
Theorem failed_reset_is_silent s :
  (truthy (App.sessionId s) = true ->
   forall e,
     run (App.handleClearConversation (Throw e)) s
     = (Normal tt, s, [Suspended (PostReset (App.sessionId s)) s]))
  /\ (truthy (App.sessionId s) = false ->
      forall reset, log (run (App.handleClearConversation reset) s) = []).
Proof.
  unfold run, App.handleClearConversation. handler_unfold.
  split; intros T; rewrite T; reflexivity.
Qed.

Lemma failed_reset_witness :
  truthy (App.sessionId in_session) = true
  /\ final (run (App.handleClearConversation (Throw "HTTP 500: "))
              in_session) = in_session.
Proof.
  split; [reflexivity|].
  exact (f_equal (fun o => snd (fst o))
           (proj1 (failed_reset_is_silent in_session) eq_refl "HTTP 500: ")).
Defined.

(** X10.  The text form submits the trimmed text: when the form is enabled
    and the field is not blank, the user Message holds [trim] of the field
    (so its content neither starts with white space nor is blank), the
    backend request carries the same text, and the field is cleared. *)
Theorem form_submits_trimmed_text w textInput s :
  App.disabled s = false -> trim textInput <> [] ->
  let o := run (App.handleTextSubmit w textInput) s in
  result o = Normal []
  /\ (exists m, App.conversation (final o)
                = App.conversation s ++ [user_message w (trim textInput); m])
  /\ hd_error (requests (log o)) = Some (turn_request s (trim textInput))
  /\ match trim textInput with
     | [] => False
     | c :: _ => is_white_space c = false
     end.
Proof.
  intros D H.
  assert (H' : trim (trim textInput) <> []) by now rewrite trim_idempotent.
  unfold run, App.handleTextSubmit, bind, get, ret.
  rewrite D, (truthy_text_trim _ H). cbn [negb andb].
  destruct (turn_outcome w (trim textInput) s [] H')
    as (s' & t' & E & C & _).
  rewrite E. unfold result, final, log. cbn [fst snd app].
  split; [reflexivity|]. split; [eexists; exact C|].
  split; [reflexivity|].
  pose proof (trim_head textInput) as T.
  destruct (trim textInput); [now elim H|exact T].
Qed.

Lemma form_submits_trimmed_text_witness :
  App.disabled App.initial = false
  /\ trim (lit "  hello ") <> []
  /\ hd_error
       (requests (log (run (App.handleTextSubmit smooth (lit "  hello "))
                         App.initial)))
     = Some (PostChat hello None).
Proof.
  assert (H : trim (lit "  hello ") <> []) by (vm_compute; discriminate).
  split; [reflexivity|]. split; [exact H|].
  exact (proj1 (proj2 (proj2
    (form_submits_trimmed_text smooth (lit "  hello ") App.initial
       eq_refl H)))).
Defined.

(** X11.  Text turns keep the shape of the log.  After any sequence of
    accepted text turns, whatever the backend and the synthesis do in each
    of them, the session has not failed, the log has grown by exactly two
    Messages per turn, and the new Messages alternate between user and
    assistant, starting with the user. *)
Theorem turns_alternate (cs : list App.Command) :
  forallb Shape.accepted_turn cs = true ->
  forall s t,
    exists added,
      result (App.session cs s t) = Normal tt
      /\ App.conversation (final (App.session cs s t))
         = App.conversation s ++ added
      /\ List.length added = (2 * List.length cs)%nat
      /\ Shape.alternates User added = true.
Proof.
  induction cs as [|c cs IH]; intros A s t.
  - exists []. cbn. rewrite app_nil_r. repeat split.
  - cbn [forallb] in A. apply andb_true_iff in A as [Ac A].
    destruct c as [text w| | | |]; try discriminate.
    cbn [Shape.accepted_turn] in Ac.
    assert (H : trim text <> []).
    { intro E. rewrite E in Ac. discriminate. }
    cbn [App.session App.exec]. unfold bind.
    destruct (turn_outcome w text s t H) as (s' & t' & E & C & _).
    rewrite E.
    destruct (IH A s'
                (t ++ Suspended (turn_request s text) (accepted w text s)
                   :: t'))
      as (added & R & C' & L & Alt).
    eexists (_ :: _ :: added). split; [exact R|].
    split; [rewrite C', C, <- app_assoc; reflexivity|].
    split; [cbn; lia|].
    cbn. rewrite Alt. now destruct (App.reply w).
Qed.

Lemma turns_alternate_witness :
  forallb Shape.accepted_turn
    [App.SubmitText question offline; App.SubmitText hello smooth] = true
  /\ exists added,
       App.conversation
         (final (App.session [App.SubmitText question offline;
                              App.SubmitText hello smooth]
                   App.initial []))
       = added
       /\ List.length added = 4%nat
       /\ Shape.alternates User added = true.
Proof.
  split; [reflexivity|].
  destruct (turns_alternate
              [App.SubmitText question offline; App.SubmitText hello smooth]
              eq_refl App.initial []) as (added & _ & C & L & A).
  exists added. split; [exact C|]. split; [exact L|exact A].
Defined.

(** ** The earlier App and the synthesis hook *)

(** X12.  [handleSpeak] of the earlier App, by what the synthesizer does.
    Without [window.speechSynthesis] the promise resolves at once: nothing
    is requested and the state is untouched.  When a call of the
    synthesizer throws, the promise rejects with that error: nothing is
    logged and the state is untouched.  When the synthesizer accepts the
    utterance, the promise is pending in the state [handleSpeak] was called
    in, and it is resolved by the utterance's [end] or [error] event, after
    the [start] event if there is one: [isSpeaking] is then clear, the
    emotion is neutral after [end] and confused after [error], and the
    conversation and [isLoading] are as they were. *)
Theorem legacy_handleSpeak_outcomes w text s :
  let o := run (LegacyApp.handleSpeak w text) s in
  (LegacyApp.synthesis_present w = false ->
   result o = Normal tt /\ final o = s /\ log o = [])
  /\ (forall e, LegacyApp.synthesis_present w = true ->
      LegacyApp.synthesizer_throws w = Some e ->
      result o = Throw e /\ final o = s /\ log o = [])
  /\ (LegacyApp.synthesis_present w = true ->
      LegacyApp.synthesizer_throws w = None ->
      result o = Normal tt
      /\ log o
         = Suspended (LegacyApp.SynthesisSpeak text (9#10) (11#10) (8#10)) s
           :: (if LegacyApp.starts w
               then [Fired "start" (LegacyApp.with_speaking true s)]
               else [])
           ++ [Fired (if LegacyApp.ends w then "end" else "error")
                 (final o)]
      /\ LegacyApp.isSpeaking (final o) = false
      /\ LegacyApp.currentEmotion (final o)
         = (if LegacyApp.ends w then "neutral" else "confused")
      /\ LegacyApp.conversation (final o) = LegacyApp.conversation s
      /\ LegacyApp.isLoading (final o) = LegacyApp.isLoading s
      /\ LegacyApp.isListening (final o) = LegacyApp.isListening s).
Proof.
  unfold run, LegacyApp.handleSpeak. handler_unfold.
  destruct w as [ns nr reply present throws starts ends]; cbn.
  destruct present; cbn.
  - destruct throws as [e|]; cbn.
    + split; [discriminate|]. split; [|discriminate].
      intros e' _ [= <-]. now repeat split.
    + split; [discriminate|]. split; [discriminate|]. intros _ _.
      destruct starts, ends; cbn; now repeat split.
  - split; [now repeat split|]. split; discriminate.
Qed.

Lemma legacy_handleSpeak_outcomes_witness :
  LegacyApp.synthesis_present legacy_throwing = true
  /\ LegacyApp.synthesizer_throws legacy_throwing = Some "InvalidStateError"
  /\ result (run (LegacyApp.handleSpeak legacy_throwing hello)
               LegacyApp.initial) = Throw "InvalidStateError"
  /\ LegacyApp.synthesis_present legacy_failing_utterance = true
  /\ LegacyApp.synthesizer_throws legacy_failing_utterance = None
  /\ LegacyApp.currentEmotion
       (final (run (LegacyApp.handleSpeak legacy_failing_utterance hello)
                 LegacyApp.initial)) = "confused".
Proof.
  split; [reflexivity|]. split; [reflexivity|].
  split;
    [exact (proj1 (proj1 (proj2
       (legacy_handleSpeak_outcomes legacy_throwing hello LegacyApp.initial))
       "InvalidStateError" eq_refl eq_refl))|].
  split; [reflexivity|]. split; [reflexivity|].
  exact (proj1 (proj2 (proj2 (proj2 (proj2 (proj2
    (legacy_handleSpeak_outcomes legacy_failing_utterance hello
       LegacyApp.initial)) eq_refl eq_refl))))).
Defined.

(** X13.  When both synthesis paths fail, the hook's [speak] rejects: the
    remote path rejected, and the on-device path is unsupported or fails.
    The caller gets the error of the on-device path, the hook's error is
    'Text-to-speech failed', and [isSpeaking] and the current text are
    cleared. *)
Theorem hook_speak_fails_when_both_paths_fail w text emotion s :
  trim text <> [] ->
  TtsHook.primary_rejects w = true ->
  TtsHook.isSupported s = false \/ TtsHook.fallback_succeeds w = false ->
  let o := run (TtsHook.speak w text emotion true) s in
  (exists e, result o = Throw e)
  /\ TtsHook.error (final o) = Some "Text-to-speech failed"
  /\ TtsHook.isSpeaking (final o) = false
  /\ TtsHook.currentText (final o) = [].
Proof.
  intros H P F. unfold run, TtsHook.speak.
  rewrite (nonblank_speak_guard text H).
  revert P F. unfold TtsHook.primary_rejects, TtsHook.fallback_succeeds.
  hook_unfold. handler_unfold.
  destruct w as [tts mounted play first [present utt]]; cbn.
  destruct s as [spk sup err cur prog]; cbn.
  destruct tts as [u|e]; cbn.
  - destruct mounted; cbn; [|discriminate].
    destruct play as [[]|e]; cbn; [discriminate|].
    intros _ [->|F]; cbn.
    + repeat split. eexists; reflexivity.
    + destruct sup; cbn; [|repeat split; eexists; reflexivity].
      destruct present; cbn in *;
        [destruct utt as [[]|?]; [discriminate|]|]; cbn;
        repeat split; eexists; reflexivity.
  - intros _ [->|F]; cbn.
    + repeat split. eexists; reflexivity.
    + destruct sup; cbn; [|repeat split; eexists; reflexivity].
      destruct present; cbn in *;
        [destruct utt as [[]|?]; [discriminate|]|]; cbn;
        repeat split; eexists; reflexivity.
Qed.

Lemma hook_speak_fails_witness :
  trim hello <> []
  /\ TtsHook.primary_rejects tts_down = true
  /\ TtsHook.error
       (final (run (TtsHook.speak tts_down hello "happy" true)
                 {| TtsHook.isSpeaking := false; TtsHook.isSupported := false;
                    TtsHook.error := None; TtsHook.currentText := [];
                    TtsHook.progress := 0 |}))
     = Some "Text-to-speech failed".
Proof.
  assert (H : trim hello <> []) by (vm_compute; discriminate).
  split; [exact H|]. split; [reflexivity|].
  exact (proj1 (proj2
    (hook_speak_fails_when_both_paths_fail tts_down hello "happy"
       {| TtsHook.isSpeaking := false; TtsHook.isSupported := false;
          TtsHook.error := None; TtsHook.currentText := [];
          TtsHook.progress := 0 |}
       H eq_refl (or_introl eq_refl)))).
Defined.

(** X14.  The hook's [speak] ignores an empty or blank text on either
    path: nothing is requested and the state is untouched. *)
Theorem hook_speak_ignores_blank_text w text emotion useAPI s :
  trim text = [] ->
  run (TtsHook.speak w text emotion useAPI) s = (Normal tt, s, []).
Proof.
  intro H. unfold run, TtsHook.speak. rewrite H. cbn.
  now rewrite orb_true_r.
Qed.

Lemma hook_speak_ignores_blank_text_witness :
  trim [32; 10]%N = []
  /\ run (TtsHook.speak all_fine [32; 10]%N "happy" true) hook_ready
     = (Normal tt, hook_ready, []).
Proof.
  split; [reflexivity|].
  exact (hook_speak_ignores_blank_text all_fine [32; 10]%N "happy" true
           hook_ready eq_refl).
Defined.

(** ** Voices *)

(** X15.  [selectVoice] returns no voice exactly when the platform has
    none; otherwise it returns one of the platform's voices, and an English
    one ([lang] starting with en) whenever the platform has an English
    voice.  The preferred accent does not influence the choice. *)
Theorem selectVoice_picks_an_available_voice
  (toLowerCase : jsstring -> jsstring) (voices : list Voices.Voice)
  (gender accent : jsstring) :
  (Voices.selectVoice toLowerCase voices gender accent = None
   <-> voices = [])
  /\ (forall v, Voices.selectVoice toLowerCase voices gender accent = Some v ->
        In v voices
        /\ (existsb Voices.english voices = true ->
            Voices.english v = true))
  /\ (forall accent',
        Voices.selectVoice toLowerCase voices gender accent'
        = Voices.selectVoice toLowerCase voices gender accent).
Proof.
  unfold Voices.selectVoice. split; [|split; [|reflexivity]].
  - destruct voices as [|first rest]; [now split|].
    split; [|discriminate].
    destruct (find _ (first :: rest)); [discriminate|].
    destruct (find _ (first :: rest)); discriminate.
  - intros v. destruct voices as [|first rest]; [discriminate|].
    destruct (find (Voices.preferred toLowerCase gender) (first :: rest))
      as [p|] eqn:P.
    + intros [= <-]. apply find_some in P as [I Q]. split; [exact I|].
      intros _. unfold Voices.preferred in Q.
      now destruct (Voices.english p).
    + destruct (find Voices.english (first :: rest)) as [q|] eqn:Q.
      * intros [= <-]. apply find_some in Q as [I E]. now split.
      * intros [= <-]. split; [now left|].
        intro X. apply existsb_exists in X as (x & I & E).
        pose proof (find_none _ _ Q x I) as N. congruence.
Qed.

Lemma config_in_table (tag : string) (c : VoiceConfig) :
  Speech.getVoiceConfig tag = Own c -> In c (map snd Speech.configs).
Proof.
  unfold Speech.getVoiceConfig, get_property, or_else.
  assert (O : forall k v, own_property Speech.configs k = Some v ->
                          In v (map snd Speech.configs)).
  { intros k v. generalize Speech.configs.
    induction l as [|[k' v'] l IH]; cbn; [discriminate|].
    destruct (k' =? k)%string; [intros [= ->]; now left|].
    intro E. right. now apply IH. }
  destruct (own_property Speech.configs tag) as [v|] eqn:E.
  - intros [= <-]. eapply O, E.
  - destruct (inherited tag); [discriminate|].
    destruct (own_property Speech.configs "neutral") as [v|] eqn:N;
      [|destruct (inherited "neutral"); discriminate].
    intros [= <-]. eapply O, N.
Qed.

(** X16.  Every configuration [getVoiceConfig] can return, for any emotion
    string at all, is in the range a [SpeechSynthesisUtterance] accepts:
    rate between 0.1 and 10, pitch between 0 and 2, volume between 0 and
    1; in fact rate is within 0.7 and 1.2, pitch within 0.8 and 1.3 and
    volume within 0.7 and 1. *)
Theorem voice_parameters_are_in_range (tag : string) (c : VoiceConfig) :
  Speech.getVoiceConfig tag = Own c ->
  (7#10 <= rate c /\ rate c <= 12#10
   /\ 8#10 <= pitch c /\ pitch c <= 13#10
   /\ 7#10 <= volume c /\ volume c <= 1)%Q.
Proof.
  intro H. apply config_in_table in H. cbn in H.
  repeat (destruct H as [<-|H];
          [cbn; repeat split; unfold Qle; cbn; lia|]).
  contradiction.
Qed.

Lemma voice_parameters_witness :
  Speech.getVoiceConfig "excited"
  = Own {| rate := 12#10; pitch := 13#10; volume := 10#10;
           gender := "female"; accent := "us" |}
  /\ (volume {| rate := 12#10; pitch := 13#10; volume := 10#10;
                gender := "female"; accent := "us" |} <= 1)%Q.
Proof.
  split; [reflexivity|].
  exact (proj2 (proj2 (proj2 (proj2 (proj2
    (voice_parameters_are_in_range "excited" _ eq_refl)))))).
Defined.

Lemma selectVoice_witness :
  Voices.selectVoice Voices.ascii_lower
    [ {| Voices.name := lit "Amelie"; Voices.lang := lit "fr-FR" |};
      {| Voices.name := lit "Daniel"; Voices.lang := lit "en-GB" |} ]
    (lit "female") (lit "us")
  = Some {| Voices.name := lit "Daniel"; Voices.lang := lit "en-GB" |}
  /\ Voices.english
       {| Voices.name := lit "Daniel"; Voices.lang := lit "en-GB" |} = true.
Proof.
  split; [reflexivity|].
  exact (proj2 (proj1 (proj2
    (selectVoice_picks_an_available_voice Voices.ascii_lower
       [ {| Voices.name := lit "Amelie"; Voices.lang := lit "fr-FR" |};
         {| Voices.name := lit "Daniel"; Voices.lang := lit "en-GB" |} ]
       (lit "female") (lit "us"))) _ eq_refl) eq_refl).
Defined.

(** ** Record and upload *)

Lemma startsWith_prefix (p s : jsstring) :
  Text.startsWith p s = true -> exists r, s = p ++ r.
Proof.
  revert s. induction p as [|a p IH]; intros s; cbn.
  - intros _. now exists s.
  - destruct s as [|b s]; [discriminate|].
    intro H. apply andb_true_iff in H as [E H].
    apply N.eqb_eq in E as ->. destruct (IH s H) as (r & ->). now exists r.
Qed.

(** A pattern with a code unit the text lacks does not occur in it. *)
Lemma replace_absent (c : N) (pat rep s : jsstring) :
  In c pat -> ~ In c s -> Text.replace pat rep s = s.
Proof.
  intros P. induction s as [|a s IH]; intro A; cbn.
  - destruct (Text.startsWith pat []) eqn:E; [|reflexivity].
    apply startsWith_prefix in E as (r & E).
    destruct pat; [contradiction|discriminate].
  - destruct (Text.startsWith pat (a :: s)) eqn:E.
    + apply startsWith_prefix in E as (r & E). exfalso. apply A.
      rewrite E. apply in_or_app. now left.
    + rewrite IH; [reflexivity|]. intro I. apply A. now right.
Qed.

Lemma base64_has_no_colon (payload : jsstring) :
  forallb Upload.is_base64 payload = true -> ~ In 58%N payload.
Proof.
  intros B I. rewrite forallb_forall in B. specialize (B _ I).
  discriminate.
Qed.

(** X17.  Round trip of [blobToBase64] for the four MIME types it knows:
    from the data URL of a blob of type audio/webm, audio/wav, audio/mp3 or
    audio/ogg, it returns exactly the base64 payload. *)
Theorem blobToBase64_strips_known_prefix (type : string) (payload : jsstring) :
  In type ["audio/webm"; "audio/wav"; "audio/mp3"; "audio/ogg"] ->
  forallb Upload.is_base64 payload = true ->
  Upload.strip_prefixes (Upload.data_url type payload) = payload.
Proof.
  intros T B. apply base64_has_no_colon in B.
  assert (R : forall pat, In 58%N pat ->
                          Text.replace pat [] payload = payload).
  { intros pat P. now apply (replace_absent 58%N). }
  unfold Upload.strip_prefixes, Upload.data_url.
  destruct T as [<-|[<-|[<-|[<-|[]]]]]; cbn; rewrite ?R; try reflexivity;
    cbn; intuition.
Qed.

Lemma blobToBase64_strips_known_prefix_witness :
  In "audio/wav" ["audio/webm"; "audio/wav"; "audio/mp3"; "audio/ogg"]
  /\ forallb Upload.is_base64 (lit "UklGRg==") = true
  /\ Upload.strip_prefixes (lit "data:audio/wav;base64,UklGRg==")
     = lit "UklGRg==".
Proof.
  split; [right; left; reflexivity|]. split; [reflexivity|].
  exact (blobToBase64_strips_known_prefix "audio/wav" (lit "UklGRg==")
           (or_intror (or_introl eq_refl)) eq_refl).
Defined.

(** X18.  The prefix is not removed for the other MIME types the recorder
    may select: for a blob of type audio/webm;codecs=opus (the recorder's
    first choice) or audio/mp4, [blobToBase64] returns the whole data URL,
    prefix included.  So whenever the platform supports
    audio/webm;codecs=opus, the recorder selects it and the text that would
    be uploaded for its blobs still starts with data:. *)
Theorem blobToBase64_keeps_other_prefixes (payload : jsstring) :
  forallb Upload.is_base64 payload = true ->
  (forall type, In type ["audio/webm;codecs=opus"; "audio/mp4"] ->
     Upload.strip_prefixes (Upload.data_url type payload)
     = Upload.data_url type payload)
  /\ (forall supported, supported "audio/webm;codecs=opus" = true ->
        Text.startsWith (lit "data:")
          (Upload.strip_prefixes
             (Upload.data_url (Microphone.selectMimeType supported) payload))
        = true).
Proof.
  intros B. apply base64_has_no_colon in B.
  assert (R : forall pat, In 58%N pat ->
                          Text.replace pat [] payload = payload).
  { intros pat P. now apply (replace_absent 58%N). }
  assert (K : forall type,
            In type ["audio/webm;codecs=opus"; "audio/mp4"] ->
            Upload.strip_prefixes (Upload.data_url type payload)
            = Upload.data_url type payload).
  { intros type T. unfold Upload.strip_prefixes, Upload.data_url.
    destruct T as [<-|[<-|[]]]; cbn; rewrite ?R; try reflexivity;
      cbn; intuition. }
  split; [exact K|]. intros supported S.
  unfold Microphone.selectMimeType, Microphone.mimeTypes. cbn [find].
  rewrite S, K; [reflexivity|now left].
Qed.

Lemma blobToBase64_keeps_other_prefixes_witness :
  forallb Upload.is_base64 (lit "GkXf") = true
  /\ Upload.strip_prefixes (lit "data:audio/mp4;base64,GkXf")
     = lit "data:audio/mp4;base64,GkXf".
Proof.
  split; [reflexivity|].
  exact (proj1 (blobToBase64_keeps_other_prefixes (lit "GkXf") eq_refl)
           "audio/mp4" (or_intror (or_introl eq_refl))).
Defined.

(** X19.  [convertSpeechToText] turns every failure into one fixed error
    and never changes the caller's state.  When reading the blob fails,
    nothing is uploaded; when the upload fails, the caller sees the same
    fixed error; otherwise the caller gets the transcript, and the request
    carried the stripped text of the data URL and the format derived from
    the blob's type. *)
Theorem convertSpeechToText_normalises_failures
  (St : Type) (x : Upload.Transfer) (blob : Recorder.Blob) (s : St) :
  let o := run (Upload.convertSpeechToText x blob) s in
  final o = s
  /\ match Upload.read x, Upload.stt x with
     | Normal url, Normal transcript =>
         result o = Normal transcript
         /\ requests (log o)
            = [Upload.ReadAsDataURL;
               Upload.PostStt (Upload.strip_prefixes url)
                              (Upload.format_of blob)]
     | Normal url, Throw _ =>
         result o = Throw "Failed to convert speech to text"
         /\ requests (log o)
            = [Upload.ReadAsDataURL;
               Upload.PostStt (Upload.strip_prefixes url)
                              (Upload.format_of blob)]
     | Throw _, _ =>
         result o = Throw "Failed to convert speech to text"
         /\ requests (log o) = [Upload.ReadAsDataURL]
     end.
Proof.
  unfold run, Upload.convertSpeechToText, Upload.blobToBase64.
  handler_unfold. destruct x as [[url|e] [t|e']]; cbn; repeat split.
Qed.

(** X20.  [stopListeningWithRecorder] never throws.  With no recording in
    progress ([stopRecording] resolves with null) it returns null, uploads
    nothing and clears [isListening].  When the recorder's promise rejects,
    it returns null with the error 'Failed to process recording' and leaves
    [isListening] as it was.  With a blob, [isListening] is cleared, and it
    returns the transcript when the upload works, and null with the same
    error when it fails. *)
Theorem stopListeningWithRecorder_never_throws
  (stopped : completion (option Recorder.Blob)) (x : Upload.Transfer)
  (s : Upload.HookState) :
  let o := run (Upload.stopListeningWithRecorder stopped x) s in
  (exists v, result o = Normal v)
  /\ (forall r events,
        Recorder.in_progress r = false ->
        Upload.settlement (fst (Recorder.stopRecording r events))
        = Some stopped ->
        result o = Normal None
        /\ final o = Upload.with_listening false s
        /\ existsb Upload.is_upload (requests (log o)) = false)
  /\ (forall e, stopped = Throw e ->
        result o = Normal None
        /\ final o
           = Upload.with_error (Some "Failed to process recording") s
        /\ existsb Upload.is_upload (requests (log o)) = false)
  /\ (forall blob, stopped = Normal (Some blob) ->
        Upload.isListening (final o) = false
        /\ match Upload.read x, Upload.stt x with
           | Normal _, Normal transcript =>
               result o = Normal (Some transcript)
               /\ Upload.transcript (final o) = transcript
               /\ Upload.error (final o) = Upload.error s
           | _, _ =>
               result o = Normal None
               /\ Upload.transcript (final o) = Upload.transcript s
               /\ Upload.error (final o)
                  = Some "Failed to process recording"
           end).
Proof.
  unfold run, Upload.stopListeningWithRecorder, Upload.convertSpeechToText,
    Upload.blobToBase64. handler_unfold.
  split; [|split; [|split]].
  - destruct stopped as [[blob|]|e]; cbn; [|eexists; reflexivity..].
    destruct x as [[url|e] [t|e']]; cbn; eexists; reflexivity.
  - intros r events I.
    unfold Recorder.stopRecording, Recorder.in_progress in *.
    destruct (Recorder.mediaRecorder r) as [m|];
      [destruct (Recorder.state m); try discriminate|];
      cbn; intros [= <-]; cbn; repeat split.
  - intros e ->. cbn. repeat split.
  - intros blob ->. cbn.
    destruct x as [[url|e] [t|e']]; cbn; repeat split.
Qed.

Lemma stopListeningWithRecorder_witness :
  Recorder.in_progress (Microphone.recorder Microphone.fresh) = false
  /\ result
       (run (Upload.stopListeningWithRecorder (Normal None)
               {| Upload.read := Normal (lit "data:audio/webm;base64,GkXf");
                  Upload.stt := Normal hello |})
            {| Upload.isListening := true; Upload.isSupported := true;
               Upload.error := None; Upload.transcript := [];
               Upload.confidence := 0 |})
     = Normal None.
Proof.
  split; [reflexivity|].
  exact (proj1 (proj1 (proj2
    (stopListeningWithRecorder_never_throws (Normal None)
       {| Upload.read := Normal (lit "data:audio/webm;base64,GkXf");
          Upload.stt := Normal hello |}
       {| Upload.isListening := true; Upload.isSupported := true;
          Upload.error := None; Upload.transcript := [];
          Upload.confidence := 0 |}))
    (Microphone.recorder Microphone.fresh) [] eq_refl eq_refl)).
Defined.

(** ** The recorder's life cycle *)

Lemma find_first {A : Type} (f : A -> bool) (l : list A) (x : A) :
  find f l = Some x ->
  exists before after,
    l = before ++ x :: after
    /\ forallb (fun y => negb (f y)) before = true
    /\ f x = true.
Proof.
  induction l as [|a l IH]; cbn; [discriminate|].
  destruct (f a) eqn:E.
  - intros [= <-]. now exists [], l.
  - intro H. destruct (IH H) as (b & c & -> & B & X).
    exists (a :: b), c. cbn. now rewrite E, B.
Qed.

(** X21.  The MIME type [initialize] selects is one of its four candidates.
    When the platform supports any of them, the selected one is supported
    and every candidate listed before it is not; when it supports none, the
    selection is audio/webm. *)
Theorem selectMimeType_is_first_supported (supported : string -> bool) :
  In (Microphone.selectMimeType supported) Microphone.mimeTypes
  /\ (existsb supported Microphone.mimeTypes = true ->
      exists before after,
        Microphone.mimeTypes
        = before ++ Microphone.selectMimeType supported :: after
        /\ forallb (fun t => negb (supported t)) before = true
        /\ supported (Microphone.selectMimeType supported) = true)
  /\ (existsb supported Microphone.mimeTypes = false ->
      Microphone.selectMimeType supported = "audio/webm").
Proof.
  unfold Microphone.selectMimeType.
  destruct (find supported Microphone.mimeTypes) as [t|] eqn:F.
  - split; [now apply find_some in F|]. split.
    + intros _. now apply find_first.
    + intro N. apply find_some in F as [I S].
      assert (X : existsb supported Microphone.mimeTypes = true)
        by (apply existsb_exists; now exists t).
      congruence.
  - split; [right; now left|]. split; [|reflexivity].
    intro X. apply existsb_exists in X as (t & I & S).
    pose proof (find_none _ _ F t I). congruence.
Qed.

Lemma selectMimeType_witness :
  existsb (String.eqb "audio/mp4") Microphone.mimeTypes = true
  /\ (String.eqb "audio/mp4")
       (Microphone.selectMimeType (String.eqb "audio/mp4")) = true.
Proof.
  split; [reflexivity|].
  destruct (proj1 (proj2
    (selectMimeType_is_first_supported (String.eqb "audio/mp4"))) eq_refl)
    as (before & after & _ & _ & S).
  exact S.
Defined.

Lemma data_events_accumulate (ds : list Recorder.chunk) :
  forall r,
    Recorder.mediaRecorder
      (Microphone.while_recording r (map Microphone.Data ds))
    = Recorder.mediaRecorder r
    /\ List.concat
         (Recorder.audioChunks
            (Microphone.while_recording r (map Microphone.Data ds)))
       = List.concat (Recorder.audioChunks r) ++ List.concat ds
    /\ Recorder.isRecording
         (Microphone.while_recording r (map Microphone.Data ds))
       = Recorder.isRecording r.
Proof.
  unfold Microphone.while_recording.
  induction ds as [|d ds IH]; intro r; cbn [map fold_left].
  - now rewrite app_nil_r.
  - destruct (IH (Microphone.on_event r (Microphone.Data d)))
      as (M & C & R).
    rewrite M, C, R. destruct d as [|b d]; cbn.
    + repeat split.
    + rewrite concat_app. cbn. rewrite app_nil_r, <- app_assoc.
      repeat split.
Qed.

Lemma stop_events_accumulate m (ds : list Recorder.chunk) :
  forall r,
    fold_left (Recorder.handle m)
      (map Recorder.DataAvailable ds ++ [Recorder.Stop])
      (Recorder.Pending, r)
    = (Recorder.Resolved
         (Some {| Recorder.bytes :=
                    List.concat (Recorder.audioChunks r) ++ List.concat ds;
                  Recorder.type := Recorder.mimeType m |}),
       {| Recorder.mediaRecorder := Recorder.mediaRecorder r;
          Recorder.audioChunks := [];
          Recorder.isRecording := false |}).
Proof.
  induction ds as [|d ds IH]; intro r; cbn [map app fold_left].
  - cbn. now rewrite app_nil_r.
  - destruct d as [|b d].
    + change (Recorder.handle m (Recorder.Pending, r)
                (Recorder.DataAvailable []))
        with (@Recorder.Pending (option Recorder.Blob), r).
      rewrite IH. reflexivity.
    + change (Recorder.handle m (Recorder.Pending, r)
                (Recorder.DataAvailable (b :: d)))
        with (@Recorder.Pending (option Recorder.Blob),
              {| Recorder.mediaRecorder := Recorder.mediaRecorder r;
                 Recorder.audioChunks := Recorder.audioChunks r ++ [b :: d];
                 Recorder.isRecording := Recorder.isRecording r |}).
      rewrite IH. cbn. rewrite concat_app. cbn.
      now rewrite app_nil_r, <- app_assoc.
Qed.

(** X22.  A recording yields what was recorded.  [startRecording] on an
    inactive recorder returns true without asking for the microphone again;
    after the recorder's start event, the data delivered while recording
    and the data delivered after [stopRecording] end up, in order, in the
    one blob the promise resolves with, typed with the recorder's MIME
    type; chunks left over from before the start are not in it; afterwards
    the chunk list is empty and [isRecording] is clear. *)
Theorem recording_yields_what_was_recorded
  (p : Microphone.Platform) (d : Microphone.Device)
  (m : Recorder.MediaRecorder) (during after : list Recorder.chunk) :
  Recorder.mediaRecorder (Microphone.recorder d) = Some m ->
  Recorder.state m = Recorder.inactive ->
  let started := run (Microphone.startRecording p) d in
  result started = Normal true
  /\ log started = []
  /\ Recorder.stopRecording
       (Microphone.while_recording
          (Microphone.recorder (final started))
          (Microphone.Started :: map Microphone.Data during))
       (map Recorder.DataAvailable after ++ [Recorder.Stop])
     = (Recorder.Resolved
          (Some {| Recorder.bytes := List.concat (during ++ after);
                   Recorder.type := Recorder.mimeType m |}),
        {| Recorder.mediaRecorder :=
             Some {| Recorder.state := Recorder.inactive;
                     Recorder.mimeType := Recorder.mimeType m |};
           Recorder.audioChunks := [];
           Recorder.isRecording := false |}).
Proof.
  intros M S started.
  assert (E : started
              = (Normal true,
                 Microphone.with_mediaRecorder
                   (Some {| Recorder.state := Recorder.recording;
                            Recorder.mimeType := Recorder.mimeType m |})
                   (Microphone.with_chunks [] d),
                 [])).
  { unfold started, run, Microphone.startRecording. handler_unfold.
    rewrite M. cbv beta iota zeta. rewrite M, S. reflexivity. }
  rewrite E. unfold result, final, log. cbn [fst snd].
  split; [reflexivity|]. split; [reflexivity|].
  destruct (data_events_accumulate during
              {| Recorder.mediaRecorder :=
                   Some {| Recorder.state := Recorder.recording;
                           Recorder.mimeType := Recorder.mimeType m |};
                 Recorder.audioChunks := [];
                 Recorder.isRecording := true |}) as (M' & C & R).
  unfold Microphone.while_recording in *. cbn in M', C, R. cbn.
  unfold Recorder.stopRecording. rewrite M'. cbn.
  rewrite stop_events_accumulate. cbn. rewrite C.
  now rewrite concat_app.
Qed.

Lemma recording_witness :
  Recorder.state {| Recorder.state := Recorder.inactive;
                    Recorder.mimeType := "audio/webm" |} = Recorder.inactive
  /\ log (run (Microphone.startRecording
                 {| Microphone.getUserMedia := Normal 1%N;
                    Microphone.isTypeSupported := fun _ => true |})
              {| Microphone.recorder :=
                   {| Recorder.mediaRecorder :=
                        Some {| Recorder.state := Recorder.inactive;
                                Recorder.mimeType := "audio/webm" |};
                      Recorder.audioChunks := [[9; 9]%N];
                      Recorder.isRecording := false |};
                 Microphone.stream := Some 1%N |}) = [].
Proof.
  split; [reflexivity|].
  exact (proj1 (proj2
    (recording_yields_what_was_recorded
       {| Microphone.getUserMedia := Normal 1%N;
          Microphone.isTypeSupported := fun _ => true |}
       {| Microphone.recorder :=
            {| Recorder.mediaRecorder :=
                 Some {| Recorder.state := Recorder.inactive;
                         Recorder.mimeType := "audio/webm" |};
               Recorder.audioChunks := [[9; 9]%N];
               Recorder.isRecording := false |};
          Microphone.stream := Some 1%N |}
       _ [[1; 2]%N] [[3]%N] eq_refl eq_refl))).
Defined.

(** X23.  Starting a recording on a new recorder object.  When
    [getUserMedia] rejects (permission denied, no device),
    [startRecording] rejects with that same error, the object is unchanged,
    and a following [stopRecording] resolves with null.  When it resolves
    and the platform supports one of the candidates, [startRecording]
    returns true with a recorder of the selected MIME type that is
    recording, holding the stream.  When it resolves but no candidate is
    supported, [startRecording] rejects and the acquired stream stays in
    the object. *)
Theorem startRecording_on_a_new_recorder (p : Microphone.Platform) :
  let o := run (Microphone.startRecording p) Microphone.fresh in
  match Microphone.getUserMedia p with
  | Throw e =>
      result o = Throw e /\ final o = Microphone.fresh
      /\ forall events,
           Recorder.stopRecording (Microphone.recorder (final o)) events
           = (Recorder.Resolved None, Microphone.recorder Microphone.fresh)
  | Normal handle =>
      if existsb (Microphone.isTypeSupported p) Microphone.mimeTypes
      then result o = Normal true
           /\ Microphone.stream (final o) = Some handle
           /\ Recorder.mediaRecorder (Microphone.recorder (final o))
              = Some {| Recorder.state := Recorder.recording;
                        Recorder.mimeType :=
                          Microphone.selectMimeType
                            (Microphone.isTypeSupported p) |}
           /\ Recorder.audioChunks (Microphone.recorder (final o)) = []
      else result o = Throw "NotSupportedError"
           /\ Microphone.stream (final o) = Some handle
           /\ Recorder.mediaRecorder (Microphone.recorder (final o)) = None
  end.
Proof.
  destruct (selectMimeType_is_first_supported (Microphone.isTypeSupported p))
    as (_ & Y & N).
  unfold run, Microphone.startRecording, Microphone.initialize.
  handler_unfold. destruct p as [[handle|e] supported];
    cbn [Microphone.getUserMedia Microphone.isTypeSupported] in *.
  - destruct (existsb supported Microphone.mimeTypes) eqn:X.
    + destruct (Y eq_refl) as (_ & _ & _ & _ & S). cbn. rewrite S. cbn.
      repeat split.
    + rewrite (N eq_refl). cbn in X.
      apply orb_false_elim in X as [_ X].
      apply orb_false_elim in X as [X _]. cbn. rewrite X. cbn.
      repeat split.
  - cbn. repeat split.
Qed.

(** X24.  After [cleanup] the recorder is as new: its state reads
    inactive, [stopRecording] resolves with null whatever events arrive,
    and the next [startRecording] asks for the microphone again. *)
Theorem cleanup_releases_the_recorder
  (d : Microphone.Device) (p : Microphone.Platform) :
  Microphone.getRecordingState (Microphone.cleanup d) = Recorder.inactive
  /\ Microphone.stream (Microphone.cleanup d) = None
  /\ (forall events,
        fst (Recorder.stopRecording
               (Microphone.recorder (Microphone.cleanup d)) events)
        = Recorder.Resolved None)
  /\ hd_error
       (requests
          (log (run (Microphone.startRecording p) (Microphone.cleanup d))))
     = Some Microphone.GetUserMedia.
Proof.
  repeat split.
  unfold run, Microphone.startRecording, Microphone.initialize.
  handler_unfold. cbn. destruct p as [[handle|e] supported]; cbn;
    [|reflexivity].
  destruct (supported (Microphone.selectMimeType supported)); cbn;
    reflexivity.
Qed.

(** ** Back to Idle *)

(** A turn whose backend request resolves and whose remote synthesis does
    not reject: the clip is handed to the audio element when the element is
    mounted, and the handler returns with [isSpeaking] set. *)
Lemma handleUserInput_remote w text s t r :
  trim text <> [] -> App.reply w = Normal r ->
  App.primary_rejects w = false ->
  exists url,
    App.tts w = Normal url
    /\ App.handleUserInput w text s t =
         (Normal tt,
          App.with_loading false
            (App.with_speaking true
               (replied w r (App.mode s) (accepted w text s))),
          t ++ Suspended (turn_request s text) (accepted w text s)
          :: Suspended (PostTts (Data.text r) (r_emotion r))
               (App.with_speaking true
                  (replied w r (App.mode s) (accepted w text s)))
          :: (if App.audio_mounted w
              then [Suspended (AudioPlay url)
                      (App.with_speaking true
                         (replied w r (App.mode s) (accepted w text s)))]
              else [])).
Proof.
  intros H R P.
  assert (E : exists url, App.tts w = Normal url
    /\ forall s1 t1,
        App.handleSpeak w (Data.text r) (r_emotion r) s1 t1 =
          (Normal tt, App.with_speaking true s1,
           t1 ++ Suspended (PostTts (Data.text r) (r_emotion r))
                  (App.with_speaking true s1)
             :: (if App.audio_mounted w
                 then [Suspended (AudioPlay url) (App.with_speaking true s1)]
                 else []))).
  { revert P. unfold App.handleSpeak, App.primary_rejects. handler_unfold.
    destruct w as [ns nr reply tts mounted play syn]; cbn.
    destruct tts as [u|e]; cbn; [|discriminate].
    intro P. exists u. split; [reflexivity|]. intros s1 t1.
    destruct mounted; cbn in *.
    - destruct play as [[]|e]; cbn in *; [|discriminate].
      now rewrite <- app_assoc.
    - reflexivity. }
  destruct E as (url & T & E). exists url. split; [exact T|].
  specialize (E (replied w r (App.mode s) (accepted w text s))
                (t ++ [Suspended (turn_request s text) (accepted w text s)])).
  rewrite <- app_assoc in E. cbn [app] in E.
  unfold App.handleUserInput. handler_unfold.
  rewrite (truthy_text_trim text H). cbv beta iota zeta. cbn [negb].
  unfold turn_request, replied, accepted in *.
  destruct (App.mode s); rewrite R; cbv beta iota zeta;
    [destruct (truthy (r_session_id r))|]; cbv beta iota zeta.
  all: unfold user_message, assistant_message in *.
  all: unfold App.handleSpeak in *; revert E; handler_unfold;
    cbv beta iota zeta.
  all: intro E; rewrite E.
  all: reflexivity.
Qed.

(** X25.  Idle after a text turn started with [isSpeaking] and
    [isListening] clear.  When the backend rejects, all three flags are
    clear as soon as [handleUserInput] returns, with the emotion confused.
    When the backend resolves and the remote synthesis rejects, they are
    clear as soon as it returns, with the emotion neutral.  When the
    backend resolves and the remote synthesis does not reject,
    [handleUserInput] returns with [isSpeaking] still set and the emotion
    of the response, and what follows depends on the audio element.  With
    the element mounted the clip was handed to it together with the
    [onended] handler, and the turn followed by the end of the playback
    leaves all three flags clear, the emotion neutral and the conversation
    of the turn.  Without the element nothing was handed over, no handler
    was installed, and [isSpeaking] stays set: the turn does not come back
    to Idle. *)
Theorem idle_after_a_turn w text s :
  trim text <> [] ->
  App.isSpeaking s = false -> App.isListening s = false ->
  let o := run (App.handleUserInput w text) s in
  match App.reply w with
  | Throw _ =>
      idle (final o) = true /\ App.currentEmotion (final o) = "confused"
  | Normal r =>
      if App.primary_rejects w
      then idle (final o) = true /\ App.currentEmotion (final o) = "neutral"
      else idle (final o) = false
           /\ App.isLoading (final o) = false
           /\ App.isSpeaking (final o) = true
           /\ App.currentEmotion (final o) = r_emotion r
           /\ existsb Playback.is_play (requests (log o))
              = App.audio_mounted w
           /\ (App.audio_mounted w = true ->
               let o' := run (App.session
                                [App.SubmitText text w; App.PlaybackEnded])
                           s in
               result o' = Normal tt
               /\ idle (final o') = true
               /\ App.currentEmotion (final o') = "neutral"
               /\ App.conversation (final o')
                  = App.conversation (final o)
               /\ requests (log o') = requests (log o))
  end.
Proof.
  intros H S L. cbv zeta.
  destruct (App.reply w) as [r|e] eqn:R.
  - destruct (App.primary_rejects w) eqn:P.
    + unfold run, idle.
      destruct (handleUserInput_resolved w text s [] r H R) as (t' & E & _).
      pose proof (replied_flags w r (App.mode s) (accepted w text s))
        as (_ & L' & _).
      rewrite E, P. unfold final. cbn [fst snd]. cbn in *. rewrite L', L.
      now split.
    + destruct (handleUserInput_remote w text s [] r H R P)
        as (url & T & E).
      cbn [app] in E.
      pose proof (replied_flags w r (App.mode s) (accepted w text s))
        as (_ & L' & _).
      unfold App.session, App.exec. handler_unfold.
      unfold run in E |- *. rewrite E.
      unfold idle, result, final, log. cbn [fst snd].
      split; [|split; [|split; [|split; [|split]]]].
      * reflexivity.
      * reflexivity.
      * reflexivity.
      * unfold replied. now destruct (App.mode s).
      * unfold turn_request.
        now destruct (App.mode s), (App.audio_mounted w).
      * intros _. cbn in *. rewrite L', L.
        now repeat split.
  - unfold run, idle. rewrite (handleUserInput_rejected w text s [] e H R).
    cbn. rewrite S, L. now split.
Qed.

Lemma idle_after_a_turn_witness :
  trim question <> []
  /\ idle (final (run (App.session
                         [App.SubmitText question smooth; App.PlaybackEnded])
                    App.initial))
     = true.
Proof.
  assert (H : trim question <> []) by (vm_compute; discriminate).
  split; [exact H|].
  exact (proj1 (proj2 (proj2 (proj2 (proj2 (proj2 (proj2
    (idle_after_a_turn smooth question App.initial H eq_refl eq_refl)))))
    eq_refl))).
Defined.

(** ** The emotion tables *)

(** X26.  The lookup tables cover the emotions of the front end: for every
    tag of [EMOTIONS], [getVoiceConfig] and the Mascot find an entry under
    that very tag, so the neutral default is used for other tags only. *)
Theorem tables_cover_the_emotions (tag : string) :
  recognized tag = true ->
  (exists c, own_property Speech.configs tag = Some c
             /\ Speech.getVoiceConfig tag = Own c)
  /\ (exists e, own_property Speech.EMOTION_EXPRESSIONS tag = Some e
                /\ Speech.currentExpression tag = Own e).
Proof.
  intro H. unfold recognized in H. apply existsb_exists in H as (k & I & E).
  apply String.eqb_eq in E as ->.
  unfold EMOTIONS in I.
  repeat (destruct I as [<-|I];
          [split; eexists; split; reflexivity|]).
  contradiction.
Qed.

Lemma tables_cover_the_emotions_witness :
  recognized "thinking" = true
  /\ exists c, own_property Speech.configs "thinking" = Some c
               /\ Speech.getVoiceConfig "thinking" = Own c.
Proof.
  split; [reflexivity|].
  exact (proj1 (tables_cover_the_emotions "thinking" eq_refl)).
Defined.

(** ** The earlier App, any turn *)

(** X27.  In the earlier App too every accepted turn is contained,
    whichever way the backend request and the synthesizer settle:
    [handleUserInput] returns normally with [isLoading] cleared.  When the
    backend rejects, the log grows by the user Message and the apology.
    When it resolves, the log grows by the user Message and the answer,
    and a synthesizer that throws is caught by the same [catch] block: the
    apology is appended after the answer.  The final emotion is confused
    after a backend error, a throwing synthesizer or a synthesis [error]
    event, neutral after the utterance ended, and the emotion of the
    response when there is no synthesizer. *)
Theorem legacy_turn_is_contained w text s :
  trim text <> [] ->
  let o := run (LegacyApp.handleUserInput w text) s in
  result o = Normal tt
  /\ LegacyApp.isLoading (final o) = false
  /\ LegacyApp.conversation (final o)
     = LegacyApp.conversation s
         ++ legacy_user_message w text
            :: match LegacyApp.reply w with
               | Throw _ => [legacy_apology_message w]
               | Normal r =>
                   legacy_assistant_message w r
                   :: (if LegacyApp.synthesis_present w
                       then match LegacyApp.synthesizer_throws w with
                            | Some _ => [legacy_apology_message w]
                            | None => []
                            end
                       else [])
               end
  /\ LegacyApp.currentEmotion (final o)
     = match LegacyApp.reply w with
       | Throw _ => "confused"
       | Normal r =>
           if LegacyApp.synthesis_present w
           then match LegacyApp.synthesizer_throws w with
                | Some _ => "confused"
                | None => if LegacyApp.ends w then "neutral" else "confused"
                end
           else r_emotion r
       end.
Proof.
  intro H. unfold run, LegacyApp.handleUserInput, LegacyApp.handleSpeak.
  handler_unfold. rewrite (truthy_text_trim text H).
  cbv beta iota zeta. cbn [negb].
  unfold legacy_user_message, legacy_assistant_message,
    legacy_apology_message.
  destruct w as [ns nr reply present throws starts ends];
    cbn [LegacyApp.reply LegacyApp.synthesis_present
         LegacyApp.synthesizer_throws LegacyApp.starts
         LegacyApp.ends LegacyApp.now_submit LegacyApp.now_reply].
  destruct (LegacyApp.mode s), reply as [r|e]; cbn;
    try (destruct present; cbn;
         [destruct throws as [e|]; cbn; [|destruct starts, ends; cbn]|]);
    rewrite <- ?app_assoc; repeat split.
Qed.

Lemma legacy_turn_is_contained_witness :
  trim question <> []
  /\ LegacyApp.conversation
       (final (run (LegacyApp.handleUserInput legacy_throwing question)
                 LegacyApp.initial))
     = [legacy_user_message legacy_throwing question;
        legacy_assistant_message legacy_throwing answer;
        legacy_apology_message legacy_throwing].
Proof.
  assert (H : trim question <> []) by (vm_compute; discriminate).
  split; [exact H|].
  exact (proj1 (proj2 (proj2
    (legacy_turn_is_contained legacy_throwing question LegacyApp.initial
       H)))).
Defined.
